(** * PRNU fingerprinting pipelines: a shallow embedding

    The repository holds three Python scripts:
    - [prnu_compare.py]        direct file-vs-file comparison        ([Module Compare]);
    - [full_prnu_pipeline.py]  camera-available (lenient) pipeline   ([Module Lenient]);
    - the strict pipeline for the camera-unavailable case            ([Module Strict]).

    Python strings are [string]s, file contents are [list Byte.byte],
    NumPy arrays are 2-D grids with an explicit shape, exceptions are values of
    [exn], and the observable actions of a run (lines on stdout, files opened,
    RAW files decoded, figures saved) are collected in a trace.  Scalars are
    kept behind the interface [Scalar] and read at IEEE-754 binary32, what
    [astype(np.float32)] gives. *)

From Stdlib Require Import List String Ascii Bool Arith PeanoNat ZArith Lia.
From Stdlib Require Import Floats.SpecFloat.
Import ListNotations.

Local Open Scope nat_scope.
Local Open Scope list_scope.
Local Open Scope string_scope.

(** ** Python string operations used by the scripts *)

Module Py.

(** [c.lower()] on one character.  Only the ASCII letters change; no
    non-ASCII character lower-cases to one of the characters of [".cr2"]. *)
Definition lower_ascii (c : ascii) : ascii :=
  let n := nat_of_ascii c in
  if Nat.leb 65 n && Nat.leb n 90 then ascii_of_nat (n + 32) else c.

(** [s.lower()] *)
Fixpoint lower (s : string) : string :=
  match s with
  | EmptyString => EmptyString
  | String c s' => String (lower_ascii c) (lower s')
  end.

(** [s.endswith(suffix)]: [s] is [suffix], or the tail of [s] ends with it. *)
Fixpoint endswith (s suffix : string) : bool :=
  String.eqb s suffix ||
  match s with
  | EmptyString => false
  | String _ s' => endswith s' suffix
  end.

(** [s.startswith(prefix)] *)
Definition startswith (s pre : string) : bool := String.prefix pre s.

(** [os.path.basename(p)]: what follows the last ["/"]. *)
Fixpoint basename_from (acc p : string) : string :=
  match p with
  | EmptyString => acc
  | String c p' =>
      if Ascii.eqb c "/" then basename_from EmptyString p'
      else basename_from (acc ++ String c EmptyString) p'
  end.

Definition basename (p : string) : string := basename_from EmptyString p.

(** [os.path.join(a, b)] (posixpath). *)
Definition join (a b : string) : string :=
  if startswith b "/" then b
  else if String.eqb a "" || endswith a "/" then a ++ b
  else a ++ "/" ++ b.

(** [len(xs) < n] *)
Definition len_lt {A} (xs : list A) (n : nat) : bool := Nat.ltb (List.length xs) n.

End Py.

(** ** Scalars *)

(** The arithmetic NumPy performs on array elements. *)
Class Scalar (F : Type) := {
  fzero : F;
  fadd : F -> F -> F;
  fsub : F -> F -> F;
  fmul : F -> F -> F;
  fdiv : F -> F -> F;
  fsqrt : F -> F;
  of_count : nat -> F   (** an element count used as a divisor *)
}.

(** IEEE-754 binary32: 24 bits of precision, infinities at exponent 128,
    round to nearest even. *)
Module Binary32.

Definition prec : Z := 24.
Definition emax : Z := 128.

Definition float32 := spec_float.

Definition of_Z (z : Z) : float32 := binary_normalize prec emax z 0 false.

#[global] Instance float32_scalar : Scalar float32 := {
  fzero := S754_zero false;
  fadd := SFadd prec emax;
  fsub := SFsub prec emax;
  fmul := SFmul prec emax;
  fdiv := SFdiv prec emax;
  fsqrt := SFsqrt prec emax;
  of_count := fun n => of_Z (Z.of_nat n)
}.

Definition is_zero (x : float32) : bool :=
  match x with S754_zero _ => true | _ => false end.

Definition is_nan (x : float32) : bool :=
  match x with S754_nan => true | _ => false end.

Definition is_inf (x : float32) : bool :=
  match x with S754_infinity _ => true | _ => false end.

(** Neither a number nor finite. *)
Definition invalid (x : float32) : bool := is_nan x || is_inf x.

End Binary32.

(** ** Exceptions and traces *)

(** The exceptions a run can meet; all of them are instances of Python's
    [Exception], so a bare [except Exception] catches each one. *)
Inductive exn : Type :=
| ValueError (msg : string)    (** raised by the scripts, by [min] and by NumPy *)
| OSError (msg : string)       (** raised by [open] *)
| LibRawError (msg : string).  (** raised by [rawpy] *)

(** [str(e)] *)
Definition str_of_exn (e : exn) : string :=
  match e with
  | ValueError m => m
  | OSError m => m
  | LibRawError m => m
  end.

(** What a run does that can be observed from outside, in order. *)
Inductive event (F : Type) : Type :=
| Stdout (line : string)        (** [print(line)] *)
| StdoutScore (corr : F)        (** the line that prints [corr] with four decimals *)
| FileRead (path : string)      (** [open(path, "rb").read()] *)
| ImRead (path : string)        (** [rawpy.imread(path)]: pixel work on [path] starts *)
| SaveFig (outname : string).   (** [plt.savefig(outname, ...)] *)

Arguments Stdout {F} line.
Arguments StdoutScore {F} corr.
Arguments FileRead {F} path.
Arguments ImRead {F} path.
Arguments SaveFig {F} outname.

(** The events that mark the start of pixel work on a file. *)
Definition is_imread {F} (ev : event F) : Prop := exists p, ev = ImRead p.

(** A computation that emits events and ends with a value or an exception. *)
Definition M (F A : Type) : Type := (list (event F) * (exn + A))%type.

Definition ret {F A} (x : A) : M F A := ([], inr x).

Definition raise {F A} (e : exn) : M F A := ([], inl e).

Definition emit {F} (ev : event F) : M F unit := ([ev], inr tt).

Definition print {F} (line : string) : M F unit := emit (Stdout line).

Definition bind {F A B} (c : M F A) (k : A -> M F B) : M F B :=
  match c with
  | (t, inl e) => (t, inl e)
  | (t, inr x) => let '(t', r) := k x in ((t ++ t')%list, r)
  end.

(** [try: body  except Exception as e: handler(e)] *)
Definition try_except {F A} (body : M F A) (handler : exn -> M F A) : M F A :=
  match body with
  | (t, inl e) => let '(t', r) := handler e in ((t ++ t')%list, r)
  | (t, inr x) => (t, inr x)
  end.

(** A pure step that may raise. *)
Definition lift {F A} (r : exn + A) : M F A := ([], r).

Arguments bind : simpl never.

Definition trace_of {F A} (c : M F A) : list (event F) := fst c.
Definition outcome_of {F A} (c : M F A) : exn + A := snd c.

Declare Scope py_scope.
Delimit Scope py_scope with py.
Notation "x <- c ;; k" := (bind c (fun x => k))
  (at level 61, c at next level, right associativity) : py_scope.
Notation "c ;;; k" := (bind c (fun _ => k))
  (at level 61, right associativity) : py_scope.

(** How a script run ends: normally, by [sys.exit(status)], or with an
    exception that nothing catches. *)
Inductive run_end : Type :=
| Finished
| Exited (status : nat)
| Uncaught (e : exn).

(** The [if __name__ == "__main__":] block of the three scripts: with a
    wrong number of arguments the usage line is printed and the script exits
    with status 1; otherwise [job] runs on the two arguments. *)
Definition run_main {F A} (usage : string) (job : string -> string -> M F A)
    (argv : list string) : list (event F) * run_end :=
  match argv with
  | [_; arg1; arg2] =>
      match job arg1 arg2 with
      | (t, inr _) => (t, Finished)
      | (t, inl e) => (t, Uncaught e)
      end
  | _ => ([Stdout ("Usage: " ++ usage)], Exited 1)
  end.

(** ** NumPy arrays *)

Module Np.

(** A 2-D array: its shape and its elements by row and column. *)
Record ndarray (F : Type) : Type := mk {
  nrows : nat;
  ncols : nat;
  elem : nat -> nat -> F
}.

Arguments mk {F} nrows ncols elem.
Arguments nrows {F} _.
Arguments ncols {F} _.
Arguments elem {F} _ _ _.

Section Ops.
Context {F : Type} {SF : Scalar F}.

(** [a.shape] *)
Definition shape (a : ndarray F) : nat * nat := (nrows a, ncols a).

(** [a.size] *)
Definition size (a : ndarray F) : nat := nrows a * ncols a.

(** The elements in row-major order. *)
Definition ravel (a : ndarray F) : list F :=
  flat_map (fun i => map (elem a i) (seq 0 (ncols a))) (seq 0 (nrows a)).

(** An element-wise unary operation. *)
Definition map_nd (f : F -> F) (a : ndarray F) : ndarray F :=
  mk (nrows a) (ncols a) (fun i j => f (elem a i j)).

(** Broadcasting of one axis: equal lengths, or one of them is 1. *)
Definition broadcast_dim (n m : nat) : option nat :=
  if Nat.eqb n m then Some n
  else if Nat.eqb n 1 then Some m
  else if Nat.eqb m 1 then Some n
  else None.

(** The index read on an axis of length [n] when the result index is [i]. *)
Definition bidx (n i : nat) : nat := if Nat.eqb n 1 then 0 else i.

(** NumPy's message goes on with the two shapes. *)
Definition broadcast_error : exn :=
  ValueError "operands could not be broadcast together".

(** An element-wise binary operation [a op b] with broadcasting. *)
Definition broadcast2 (op : F -> F -> F) (a b : ndarray F) : exn + ndarray F :=
  match broadcast_dim (nrows a) (nrows b), broadcast_dim (ncols a) (ncols b) with
  | Some h, Some w =>
      inr (mk h w (fun i j =>
             op (elem a (bidx (nrows a) i) (bidx (ncols a) j))
                (elem b (bidx (nrows b) i) (bidx (ncols b) j))))
  | _, _ => inl broadcast_error
  end.

Definition sub := broadcast2 fsub.   (** [a - b] *)
Definition mul := broadcast2 fmul.   (** [a * b] *)

(** [a ** 2] *)
Definition square (a : ndarray F) : ndarray F := map_nd (fun v => fmul v v) a.

(** [a /= s] for a scalar [s] *)
Definition div_scalar (a : ndarray F) (s : F) : ndarray F :=
  map_nd (fun v => fdiv v s) a.

(** [np.sum(a)]: the elements added up, starting from zero.  (NumPy adds
    them pairwise; no property below depends on the order.) *)
Definition sum (a : ndarray F) : F := fold_left fadd (ravel a) fzero.

(** [np.mean(a)] *)
Definition mean (a : ndarray F) : F := fdiv (sum a) (of_count (size a)).

(** [np.std(a)]: the square root of the mean squared deviation from the mean. *)
Definition std (a : ndarray F) : F :=
  let m := mean a in
  let x := map_nd (fun v => fsub v m) a in
  fsqrt (fdiv (sum (square x)) (of_count (size a))).

(** [r[:h, :w]] *)
Definition crop (h w : nat) (r : ndarray F) : ndarray F :=
  mk (Nat.min (nrows r) h) (Nat.min (ncols r) w) (elem r).

Definition same_shape (a b : ndarray F) : bool :=
  Nat.eqb (nrows a) (nrows b) && Nat.eqb (ncols a) (ncols b).

(** [np.mean(rs, axis=0)] for a list of 2-D arrays: the list is stacked, which
    needs one common shape, and averaged element by element.  The scripts
    never reach it with an empty list ([min] has raised before). *)
Definition mean_axis0 (rs : list (ndarray F)) : exn + ndarray F :=
  match rs with
  | [] => inl (ValueError "mean of an empty list of arrays")
  | r0 :: _ =>
      if forallb (same_shape r0) rs then
        inr (mk (nrows r0) (ncols r0) (fun i j =>
               fdiv (fold_left fadd (map (fun r => elem r i j) rs) fzero)
                    (of_count (List.length rs))))
      else inl (ValueError "inhomogeneous shape")
  end.

End Ops.
End Np.

Import Np.

(** [min(xs)] over a generator of integers; the message is the one of
    CPython up to 3.12. *)
Definition py_min (xs : list nat) : exn + nat :=
  match xs with
  | [] => inl (ValueError "min() arg is an empty sequence")
  | x :: xs' => inr (fold_left Nat.min xs' x)
  end.

(** The positions of an [h] x [w] grid in row-major order. *)
Definition indices (h w : nat) : list (nat * nat) :=
  flat_map (fun i => map (pair i) (seq 0 w)) (seq 0 h).

(** ** External collaborators *)

(** What [raw.postprocess(..., output_bps=16)] returns: a grid of 16-bit
    (R, G, B) triples. *)
Definition raster : Type := ndarray (Z * Z * Z).

(** The libraries and the file system the scripts call into.  A call that
    fails gives the message of the exception the library raises.  The two
    OpenCV calls are taken on the raster of a successful decode, which is
    not empty; the error OpenCV raises on an empty raster is not modelled. *)
Record Env (F : Type) : Type := {
  (** [rawpy.imread(p)] followed by [raw.postprocess(...)] *)
  imread_postprocess : string -> string + raster;
  (** [cv2.cvtColor(rgb, cv2.COLOR_RGB2GRAY).astype(np.float32)] *)
  cvtColor_RGB2GRAY : raster -> ndarray F;
  (** [cv2.GaussianBlur(gray, (5,5), 0)] *)
  GaussianBlur : ndarray F -> ndarray F;
  (** [open(p, "rb").read()] *)
  read_binary : string -> string + list Byte.byte;
  (** [hashlib.sha256(data).hexdigest()] *)
  sha256_hexdigest : list Byte.byte -> string;
  (** the directories the folder part of a glob pattern stands for, each
      with the names of its entries *)
  scandir : string -> list (string * list string)
}.

Arguments imread_postprocess {F} _ _.
Arguments cvtColor_RGB2GRAY {F} _ _.
Arguments GaussianBlur {F} _ _.
Arguments read_binary {F} _ _.
Arguments sha256_hexdigest {F} _ _.
Arguments scandir {F} _ _.

Local Open Scope py_scope.

(** ** Code shared verbatim by the scripts *)

Module Common.
Section WithEnv.
Context {F : Type} {SF : Scalar F} (env : Env F).

(** A failed library call raises the library's exception. *)
Definition raising {A} (kind : string -> exn) (r : string + A) : M F A :=
  match r with
  | inl msg => raise (kind msg)
  | inr x => ret x
  end.

(** [extract_residual(img_path)]; the same body appears in the three scripts
    (as [extract_noise_residual] in [prnu_compare.py]). *)
Definition extract_residual (img_path : string) : M F (ndarray F) :=
  emit (ImRead img_path) ;;;
  rgb <- raising LibRawError (imread_postprocess env img_path) ;;
  let gray := cvtColor_RGB2GRAY env rgb in
  let denoised := GaussianBlur env gray in
  residual <- lift (Np.sub gray denoised) ;;
  ret (div_scalar residual (std residual)).

(** The loop [for f in ref_files: try: ... except Exception as e: ...] of
    both fingerprint builders; [residuals] is the list built so far. *)
Fixpoint collect_residuals (ref_files : list string) (residuals : list (ndarray F))
  : M F (list (ndarray F)) :=
  match ref_files with
  | [] => ret residuals
  | f :: rest =>
      residuals' <-
        try_except
          (res <- extract_residual f ;;
           print ("[+] Processed " ++ f) ;;;
           ret (residuals ++ [res])%list)
          (fun e =>
             print ("[!] Skipping " ++ f ++ ", error: " ++ str_of_exn e) ;;;
             ret residuals) ;;
      collect_residuals rest residuals'
  end.

(** The tail of both fingerprint builders: align to the smallest shape,
    average, rescale by the standard deviation. *)
Definition align_and_average (residuals : list (ndarray F)) : M F (ndarray F) :=
  min_h <- lift (py_min (map nrows residuals)) ;;
  min_w <- lift (py_min (map ncols residuals)) ;;
  let residuals := map (crop min_h min_w) residuals in
  fingerprint <- lift (mean_axis0 residuals) ;;
  ret (div_scalar fingerprint (std fingerprint)).

(** [np.sum(a * b) / (np.sqrt(np.sum(a**2)) * np.sqrt(np.sum(b**2)))] *)
Definition normalized_correlation (a b : ndarray F) : exn + F :=
  match Np.mul a b with
  | inl e => inl e
  | inr ab =>
      inr (fdiv (sum ab) (fmul (fsqrt (sum (square a))) (fsqrt (sum (square b)))))
  end.

(** [compare_to_fingerprint(test_img, fingerprint)] of both pipelines; they
    differ in the prefix of the figure's name only. *)
Definition compare_to_fingerprint (outprefix : string)
    (test_img : string) (fingerprint : ndarray F) : M F unit :=
  res_test <- extract_residual test_img ;;
  let '(h, w) := shape fingerprint in
  let res_test := crop h w res_test in
  corr <- lift (normalized_correlation res_test fingerprint) ;;
  let outname := outprefix ++ Py.basename test_img ++ ".png" in
  emit (SaveFig outname) ;;;
  print ("[+] Saved residual comparison: " ++ outname) ;;;
  emit (StdoutScore corr).

(** The names [os.path.join(ref_folder, "*.CR2")] matches in one directory:
    [fnmatch] requires the name to end in [".CR2"], and [glob] leaves out
    hidden names since the pattern does not start with a dot. *)
Definition matches_star_CR2 (name : string) : bool :=
  negb (Py.startswith name ".") && Py.endswith name ".CR2".

(** [glob.glob(os.path.join(ref_folder, "*.CR2"))] *)
Definition glob_CR2 (ref_folder : string) : list string :=
  flat_map (fun '(d, names) => map (Py.join d) (filter matches_star_CR2 names))
           (scandir env ref_folder).

(** The residuals of the files whose extraction raises nothing, in the
    order of the files: what the loop of the builders keeps. *)
Definition surviving_residuals (ref_files : list string) : list (ndarray F) :=
  flat_map (fun f => match outcome_of (extract_residual f) with
                     | inr res => [res]
                     | inl _ => []
                     end) ref_files.

(** The line the loop of the builders prints for one file. *)
Definition notice (f : string) : string :=
  match outcome_of (extract_residual f) with
  | inr _ => "[+] Processed " ++ f
  | inl e => "[!] Skipping " ++ f ++ ", error: " ++ str_of_exn e
  end.

End WithEnv.
End Common.

(** ** [prnu_compare.py] *)

Module Compare.
Section WithEnv.
Context {F : Type} {SF : Scalar F} (env : Env F).

Definition extract_noise_residual : string -> M F (ndarray F) :=
  Common.extract_residual env.

Definition compare_prnu (cr2_a cr2_b : string) : M F unit :=
  res_a <- extract_noise_residual cr2_a ;;
  res_b <- extract_noise_residual cr2_b ;;
  corr <- lift (Common.normalized_correlation res_a res_b) ;;
  let outname :=
    "PRNU_compare_" ++ Py.basename cr2_a ++ "_" ++ Py.basename cr2_b ++ ".png" in
  emit (SaveFig outname) ;;;
  print ("[+] Residuals saved: " ++ outname) ;;;
  emit (StdoutScore corr).

Definition main : list string -> list (event F) * run_end :=
  run_main "python prnu_compare.py file1.CR2 file2.CR2" compare_prnu.

End WithEnv.
End Compare.

(** ** [full_prnu_pipeline.py]: the camera-available pipeline *)

Module Lenient.
Section WithEnv.
Context {F : Type} {SF : Scalar F} (env : Env F).

Definition extract_residual : string -> M F (ndarray F) :=
  Common.extract_residual env.

Definition size_error : exn :=
  ValueError "Need at least 10 reference CR2 files for reliable fingerprint".

Definition build_fingerprint (ref_folder : string) : M F (ndarray F) :=
  let ref_files := Common.glob_CR2 env ref_folder in
  if Py.len_lt ref_files 10 then raise size_error
  else
    residuals <- Common.collect_residuals env ref_files [] ;;
    Common.align_and_average residuals.

Definition compare_to_fingerprint : string -> ndarray F -> M F unit :=
  Common.compare_to_fingerprint env "PRNU_test_".

Definition main : list string -> list (event F) * run_end :=
  run_main
    "python3 full_prnu_pipeline.py /path/to/ref_folder/ /path/to/test_image.CR2"
    (fun ref_folder test_img =>
       fp <- build_fingerprint ref_folder ;;
       compare_to_fingerprint test_img fp).

End WithEnv.
End Lenient.

(** ** The strict pipeline (camera unavailable) *)

Module Strict.
Section WithEnv.
Context {F : Type} {SF : Scalar F} (env : Env F).

Definition extract_residual : string -> M F (ndarray F) :=
  Common.extract_residual env.

Definition size_error : exn :=
  ValueError "Insufficient reference files. Need at least 15 CR2 images.".

Definition extension_error (f : string) : exn :=
  ValueError ("Invalid file extension (not CR2): " ++ f).

(** [f.lower().endswith(".cr2")] *)
Definition has_cr2_extension (f : string) : bool :=
  Py.endswith (Py.lower f) ".cr2".

(** Rule 2: the first file with another extension raises. *)
Fixpoint check_extensions (ref_files : list string) : M F unit :=
  match ref_files with
  | [] => ret tt
  | f :: rest =>
      if negb (has_cr2_extension f) then raise (extension_error f)
      else check_extensions rest
  end.

(** The line printed for one file by rule 3. *)
Definition hash_record (f : string) (data : list Byte.byte) : string :=
  "  " ++ Py.basename f ++ " -> SHA256: " ++ sha256_hexdigest env data.

(** Rule 3: one hash line per file, in order. *)
Fixpoint log_hashes (ref_files : list string) : M F unit :=
  match ref_files with
  | [] => ret tt
  | f :: rest =>
      emit (FileRead f) ;;;
      data <- Common.raising OSError (read_binary env f) ;;
      print (hash_record f data) ;;;
      log_hashes rest
  end.

Definition validate_references (ref_files : list string) : M F bool :=
  if Py.len_lt ref_files 15 then raise size_error
  else
    check_extensions ref_files ;;;
    print "Reference File Validation:" ;;;
    log_hashes ref_files ;;;
    ret true.

Definition build_reference_fingerprint (ref_folder : string) : M F (ndarray F) :=
  let ref_files := Common.glob_CR2 env ref_folder in
  validate_references ref_files ;;;
  residuals <- Common.collect_residuals env ref_files [] ;;
  Common.align_and_average residuals.

Definition compare_to_fingerprint : string -> ndarray F -> M F unit :=
  Common.compare_to_fingerprint env "PRNU_strict_".

Definition main : list string -> list (event F) * run_end :=
  run_main
    "python strict_prnu.py /path/to/ref_folder/ /path/to/test_image.CR2"
    (fun ref_folder test_img =>
       fp <- build_reference_fingerprint ref_folder ;;
       compare_to_fingerprint test_img fp).

End WithEnv.
End Strict.

(** ** A small concrete world, used to run the scripts on explicit inputs

    The blur, the luminance and the digest below stand for OpenCV and
    hashlib in the sample runs only; the general theorems hold for every
    [Env]. *)

Module Sample.

Section Filters.
Context {F : Type} {SF : Scalar F}.

(** OpenCV's default border (reflect-101): the index read for position [p]
    on an axis of length [len]. *)
Fixpoint reflect101 (fuel : nat) (len : nat) (p : Z) : nat :=
  match fuel with
  | O => 0
  | S fuel' =>
      if Nat.eqb len 1 then 0
      else if (p <? 0)%Z then reflect101 fuel' len (- p)%Z
      else if (Z.of_nat len <=? p)%Z then reflect101 fuel' len (2 * Z.of_nat len - 2 - p)%Z
      else Z.to_nat p
  end.

(** The 5-tap kernel OpenCV uses for size 5 and sigma 0: (1 4 6 4 1)/16. *)
Definition tap (k : nat) : F := fdiv (of_count k) (of_count 16).

Definition filter5 (len : nat) (at_ : nat -> F) (i : nat) : F :=
  let rd (d : Z) := at_ (reflect101 8 len (Z.of_nat i + d)%Z) in
  fadd (fadd (fadd (fadd (fmul (tap 1) (rd (-2)%Z)) (fmul (tap 4) (rd (-1)%Z)))
                         (fmul (tap 6) (rd 0%Z)))
                   (fmul (tap 4) (rd 1%Z)))
       (fmul (tap 1) (rd 2%Z)).

(** A separable 5x5 Gaussian blur: rows first, then columns. *)
Definition gaussian_blur_5x5 (g : ndarray F) : ndarray F :=
  let rowpass := mk (nrows g) (ncols g)
                    (fun i j => filter5 (ncols g) (fun j' => elem g i j') j) in
  mk (nrows g) (ncols g)
     (fun i j => filter5 (nrows g) (fun i' => elem rowpass i' j) i).

(** Integer luma of one 16-bit pixel. *)
Definition luma (px : Z * Z * Z) : Z :=
  let '(r, g, b) := px in
  Z.shiftr (r * 9798 + g * 19235 + b * 3735 + 16384) 15.

Definition to_gray (rgb : raster) : ndarray F :=
  mk (nrows rgb) (ncols rgb) (fun i j => of_count (Z.to_nat (luma (elem rgb i j)))).

End Filters.

Definition hex_digit (n : nat) : string :=
  match String.get n "0123456789abcdef" with
  | Some c => String c EmptyString
  | None => "?"
  end.

(** Stands in for SHA-256 in the sample runs: the bytes in hexadecimal. *)
Definition toy_hexdigest (data : list Byte.byte) : string :=
  String.concat ""
    (map (fun b => let n := Byte.to_nat b in hex_digit (n / 16) ++ hex_digit (n mod 16)) data).

(** A grey raster given by its luminance values (R = G = B). *)
Definition grey_raster (h w : nat) (v : nat -> nat -> Z) : raster :=
  mk h w (fun i j => (v i j, v i j, v i j)).

(** A world with one folder ["refs"]: [names] are its entries, [decode]
    tells which paths hold a RAW image, [unreadable] which cannot be opened. *)
Definition world {F : Type} {SF : Scalar F}
    (names : list string) (decode : string -> option raster)
    (unreadable : string -> bool) : Env F := {|
  imread_postprocess := fun p =>
    match decode p with
    | Some rgb => inr rgb
    | None => inl "Unsupported file format or not RAW file"
    end;
  cvtColor_RGB2GRAY := to_gray;
  GaussianBlur := gaussian_blur_5x5;
  read_binary := fun p =>
    if unreadable p then inl "Permission denied"
    else inr [Byte.x43; Byte.x52];
  sha256_hexdigest := toy_hexdigest;
  scandir := fun folder => if String.eqb folder "refs" then [("refs", names)] else []
|}.

(** Fifteen entries [a.CR2] ... [o.CR2]. *)
Definition fifteen_names : list string :=
  map (fun c => String c ".CR2") (list_ascii_of_string "abcdefghijklmno").

Definition fifteen_paths : list string := map (Py.join "refs") fifteen_names.

(** A 2x2 raster of one constant luminance, and a 1x2 raster with two
    different luminances. *)
Definition uniform_raster : raster := grey_raster 2 2 (fun _ _ => 100%Z).
Definition step_raster : raster :=
  grey_raster 1 2 (fun _ j => if Nat.eqb j 0 then 3%Z else 1%Z).

Definition no_file : string -> option raster := fun _ => None.
Definition all_readable : string -> bool := fun _ => false.

(** Every entry of the folder fails to decode. *)
Definition all_corrupt {F : Type} {SF : Scalar F} : Env F :=
  world fifteen_names no_file all_readable.

(** Only [refs/a.CR2] and [refs/b.CR2] decode. *)
Definition two_good {F : Type} {SF : Scalar F} : Env F :=
  world fifteen_names
        (fun p => if String.eqb p "refs/a.CR2" || String.eqb p "refs/b.CR2"
                  then Some step_raster else None)
        all_readable.

(** Every entry decodes to the same image. *)
Definition all_good {F : Type} {SF : Scalar F} : Env F :=
  world fifteen_names (fun _ => Some step_raster) all_readable.

(** [refs/c.CR2] cannot be opened. *)
Definition one_unreadable {F : Type} {SF : Scalar F} : Env F :=
  world fifteen_names (fun _ => Some step_raster) (fun p => String.eqb p "refs/c.CR2").

(** A single file holding the uniform raster. *)
Definition uniform_file {F : Type} {SF : Scalar F} : Env F :=
  world ["flat.CR2"] (fun _ => Some uniform_raster) all_readable.

End Sample.

(** ** The specification's wording of the size rule *)

Module Spec.

(** The size rule as the specification states it: a reference set is
    admissible when it has at least the configured minimum of files. *)
Definition size_rule (minimum_reference_count : nat) (ref_files : list string) : bool :=
  Nat.leb minimum_reference_count (List.length ref_files).

End Spec.

(** * Properties *)

(** ** Proof support *)

(** ** Strings *)

Lemma endswith_unfold (s suffix : string) :
  Py.endswith s suffix =
  String.eqb s suffix ||
  match s with
  | EmptyString => false
  | String _ s' => Py.endswith s' suffix
  end.
Proof. now destruct s. Qed.

Lemma endswith_refl (s : string) : Py.endswith s s = true.
Proof. rewrite endswith_unfold, String.eqb_refl. reflexivity. Qed.

Lemma endswith_app (p suffix : string) : Py.endswith (p ++ suffix) suffix = true.
Proof.
  induction p as [|c p IH].
  - apply endswith_refl.
  - rewrite endswith_unfold. simpl String.append. cbv iota. rewrite IH. apply orb_true_r.
Qed.

Lemma endswith_inv (s suffix : string) :
  Py.endswith s suffix = true -> exists p, s = p ++ suffix.
Proof.
  induction s as [|c s IH]; rewrite endswith_unfold; intros E.
  - apply orb_true_iff in E as [E|E]; [|discriminate].
    apply String.eqb_eq in E. exists "". now subst.
  - apply orb_true_iff in E as [E|E].
    + apply String.eqb_eq in E. exists "". now subst.
    + destruct (IH E) as [p ->]. now exists (String c p).
Qed.

Lemma lower_app (a b : string) : Py.lower (a ++ b) = Py.lower a ++ Py.lower b.
Proof. induction a as [|c a IH]; simpl; [reflexivity | now rewrite IH]. Qed.

Lemma string_app_assoc (a b c : string) : (a ++ b) ++ c = a ++ (b ++ c).
Proof. induction a as [|x a IH]; simpl; [reflexivity | now rewrite IH]. Qed.

(** [os.path.join] keeps its second argument as the end of the path. *)
Lemma join_keeps_name (d name : string) : exists p, Py.join d name = p ++ name.
Proof.
  unfold Py.join.
  destruct (Py.startswith name "/").
  - now exists "".
  - destruct (String.eqb d "" || Py.endswith d "/").
    + now exists d.
    + exists (d ++ "/"). now rewrite string_app_assoc.
Qed.

(** ** The monad *)

Lemma bind_raise {F A B} (t : list (event F)) (e : exn) (k : A -> M F B) :
  bind (t, inl e) k = (t, inl e).
Proof. reflexivity. Qed.

Lemma bind_value {F A B} (t : list (event F)) (x : A) (k : A -> M F B) :
  bind (t, inr x) k = ((t ++ trace_of (k x))%list, outcome_of (k x)).
Proof. unfold bind, trace_of, outcome_of. now destruct (k x). Qed.

Lemma M_eta {F A} (c : M F A) : c = (trace_of c, outcome_of c).
Proof. now destruct c. Qed.

Lemma outcome_bind {F A B} (c : M F A) (k : A -> M F B) :
  outcome_of (bind c k) =
  match outcome_of c with
  | inl e => inl e
  | inr x => outcome_of (k x)
  end.
Proof.
  destruct c as [t [e|x]]; unfold bind; simpl; [reflexivity|]. now destruct (k x).
Qed.

Lemma trace_bind {F A B} (c : M F A) (k : A -> M F B) :
  trace_of (bind c k) =
  (trace_of c ++ match outcome_of c with
                 | inl _ => []
                 | inr x => trace_of (k x)
                 end)%list.
Proof.
  destruct c as [t [e|x]]; unfold bind; simpl; [now rewrite app_nil_r|].
  now destruct (k x).
Qed.

Lemma log_hashes_cons {F} (env : Env F) (f : string) (rest : list string) :
  Strict.log_hashes env (f :: rest) =
  (emit (FileRead f) ;;;
   data <- Common.raising OSError (read_binary env f) ;;
   print (Strict.hash_record env f data) ;;;
   Strict.log_hashes env rest).
Proof. reflexivity. Qed.

Lemma outcome_raising {F A} (kind : string -> exn) (r : string + A) :
  outcome_of (Common.raising (F:=F) kind r) =
  match r with inl msg => inl (kind msg) | inr x => inr x end.
Proof. now destruct r. Qed.

Lemma trace_raising {F A} (kind : string -> exn) (r : string + A) :
  trace_of (Common.raising (F:=F) kind r) = [].
Proof. now destruct r. Qed.

(** ** The strict validator *)

Section Validator.
Context {F : Type} {SF : Scalar F} (env : Env F).

(** Rule 2 raises for the first file with another extension and does
    nothing otherwise. *)
Lemma check_extensions_find (ref_files : list string) :
  Strict.check_extensions (F:=F) ref_files =
  match find (fun f => negb (Strict.has_cr2_extension f)) ref_files with
  | Some f => ([], inl (Strict.extension_error f))
  | None => ([], inr tt)
  end.
Proof.
  induction ref_files as [|f rest IH]; simpl; [reflexivity|].
  destruct (negb (Strict.has_cr2_extension f)); [reflexivity | exact IH].
Qed.

Lemma find_none_all_cr2 (ref_files : list string) :
  Forall (fun f => Strict.has_cr2_extension f = true) ref_files ->
  find (fun f => negb (Strict.has_cr2_extension f)) ref_files = None.
Proof.
  induction 1 as [|f rest Hf _ IH]; simpl; [reflexivity|]. now rewrite Hf.
Qed.

(** Rule 3 raises nothing but [OSError]. *)
Lemma log_hashes_outcome (ref_files : list string) :
  outcome_of (Strict.log_hashes env ref_files) = inr tt \/
  exists msg, outcome_of (Strict.log_hashes env ref_files) = inl (OSError msg).
Proof.
  induction ref_files as [|f rest IH]; [now left|].
  rewrite log_hashes_cons, !outcome_bind, outcome_raising. simpl.
  destruct (read_binary env f) as [msg|data].
  - right. now exists msg.
  - rewrite outcome_bind. exact IH.
Qed.

Lemma validate_references_small (ref_files : list string) :
  List.length ref_files < 15 ->
  Strict.validate_references env ref_files = ([], inl Strict.size_error).
Proof.
  intros L. unfold Strict.validate_references, Py.len_lt.
  apply Nat.ltb_lt in L. now rewrite L.
Qed.

Lemma validate_references_large (ref_files : list string) :
  15 <= List.length ref_files ->
  Strict.validate_references env ref_files =
  (Strict.check_extensions ref_files ;;;
   print "Reference File Validation:" ;;;
   Strict.log_hashes env ref_files ;;;
   ret true).
Proof.
  intros L. unfold Strict.validate_references, Py.len_lt.
  apply Nat.ltb_ge in L. now rewrite L.
Qed.

Lemma size_error_not_extension_error (f : string) :
  Strict.size_error <> Strict.extension_error f.
Proof. unfold Strict.size_error, Strict.extension_error. simpl. discriminate. Qed.

(** Past the extension rule, validation ends with [True] or an [OSError]. *)
Lemma validate_references_past_extensions (ref_files : list string) :
  15 <= List.length ref_files ->
  Forall (fun f => Strict.has_cr2_extension f = true) ref_files ->
  outcome_of (Strict.validate_references env ref_files) = inr true \/
  exists msg, outcome_of (Strict.validate_references env ref_files) = inl (OSError msg).
Proof.
  intros L Hall. rewrite (validate_references_large _ L), check_extensions_find.
  replace (find (fun f => negb (Strict.has_cr2_extension f)) ref_files) with (@None string).
  - rewrite !outcome_bind. simpl.
    destruct (log_hashes_outcome ref_files) as [E|[msg E]]; rewrite E.
    + now left.
    + right. now exists msg.
  - symmetry. now apply find_none_all_cr2.
Qed.

End Validator.

(** ** The residual loop and the averaging step *)

Section Builder.
Context {F : Type} {SF : Scalar F} (env : Env F).

Lemma outcome_try_except {A} (body : M F A) (handler : exn -> M F A) :
  outcome_of (try_except body handler) =
  match outcome_of body with
  | inl e => outcome_of (handler e)
  | inr x => inr x
  end.
Proof. destruct body as [t [e|x]]; simpl; [|reflexivity]. now destruct (handler e). Qed.

Lemma trace_try_except {A} (body : M F A) (handler : exn -> M F A) :
  trace_of (try_except body handler) =
  (trace_of body ++ match outcome_of body with
                    | inl e => trace_of (handler e)
                    | inr _ => []
                    end)%list.
Proof.
  destruct body as [t [e|x]]; simpl; [|now rewrite app_nil_r]. now destruct (handler e).
Qed.

Lemma collect_residuals_cons (f : string) (rest : list string) (acc : list (ndarray F)) :
  Common.collect_residuals env (f :: rest) acc =
  (residuals' <-
     try_except
       (res <- Common.extract_residual env f ;;
        print ("[+] Processed " ++ f) ;;;
        ret (acc ++ [res])%list)
       (fun e =>
          print ("[!] Skipping " ++ f ++ ", error: " ++ str_of_exn e) ;;;
          ret acc) ;;
   Common.collect_residuals env rest residuals').
Proof. reflexivity. Qed.

(** The loop never raises: it ends with the residuals of the files that
    could be extracted, appended to those it started with. *)
Lemma collect_residuals_outcome (ref_files : list string) (acc : list (ndarray F)) :
  outcome_of (Common.collect_residuals env ref_files acc) =
  inr (acc ++ Common.surviving_residuals env ref_files)%list.
Proof.
  revert acc. induction ref_files as [|f rest IH]; intros acc.
  - simpl. now rewrite app_nil_r.
  - rewrite collect_residuals_cons, outcome_bind, outcome_try_except, !outcome_bind.
    simpl Common.surviving_residuals.
    destruct (outcome_of (Common.extract_residual env f)) as [e|res].
    + rewrite outcome_bind. simpl. apply IH.
    + rewrite outcome_bind. simpl. rewrite IH. now rewrite <- app_assoc.
Qed.

(** The minimum of a non-empty list is below each of its members. *)
Lemma fold_min_le (xs : list nat) (x0 : nat) :
  fold_left Nat.min xs x0 <= x0 /\ Forall (fun x => fold_left Nat.min xs x0 <= x) xs.
Proof.
  revert x0. induction xs as [|x xs IH]; intros x0; simpl.
  - split; [lia | constructor].
  - destruct (IH (Nat.min x0 x)) as [H0 Hall]. split; [lia|].
    constructor; [lia | exact Hall].
Qed.

Lemma py_min_le (xs : list nat) (m : nat) :
  py_min xs = inr m -> Forall (fun x => m <= x) xs.
Proof.
  destruct xs as [|x xs]; simpl; [discriminate|]. intros [= <-].
  destruct (fold_min_le xs x) as [H0 Hall]. now constructor.
Qed.

Lemma py_min_nonempty (xs : list nat) :
  xs <> [] -> exists m, py_min xs = inr m.
Proof. destruct xs as [|x xs]; [congruence|]. intros _. simpl. eauto. Qed.

(** Cropping to dimensions no larger than the array's gives exactly them. *)
Lemma crop_shape (h w : nat) (r : ndarray F) :
  h <= nrows r -> w <= ncols r -> shape (crop h w r) = (h, w).
Proof. intros Hh Hw. unfold shape, crop. simpl. f_equal; lia. Qed.

Lemma mean_axis0_same_shape (h w : nat) (rs : list (ndarray F)) :
  rs <> [] -> Forall (fun r => shape r = (h, w)) rs ->
  exists avg, mean_axis0 rs = inr avg /\ shape avg = (h, w).
Proof.
  destruct rs as [|r0 rest]; [congruence|]. intros _ Hall.
  unfold mean_axis0.
  assert (E : forallb (same_shape r0) (r0 :: rest) = true).
  { apply forallb_forall. intros r Hr.
    rewrite Forall_forall in Hall.
    pose proof (Hall r0 (or_introl eq_refl)) as H0. pose proof (Hall r Hr) as H1.
    unfold shape in H0, H1. unfold same_shape.
    injection H0 as -> ->. injection H1 as -> ->. now rewrite !Nat.eqb_refl. }
  rewrite E. eexists. split; [reflexivity|].
  inversion Hall; subst. assumption.
Qed.

(** With at least one residual, the averaging step returns a fingerprint:
    the crops to the smallest height and width, averaged and rescaled. *)
Lemma align_and_average_nonempty (residuals : list (ndarray F)) :
  residuals <> [] ->
  exists min_h min_w avg,
    py_min (map nrows residuals) = inr min_h /\
    py_min (map ncols residuals) = inr min_w /\
    mean_axis0 (map (crop min_h min_w) residuals) = inr avg /\
    shape avg = (min_h, min_w) /\
    Common.align_and_average (F:=F) residuals = ([], inr (div_scalar avg (std avg))).
Proof.
  intros Hne.
  destruct (py_min_nonempty (map nrows residuals)) as [min_h Eh].
  { destruct residuals; [congruence | discriminate]. }
  destruct (py_min_nonempty (map ncols residuals)) as [min_w Ew].
  { destruct residuals; [congruence | discriminate]. }
  destruct (mean_axis0_same_shape min_h min_w (map (crop min_h min_w) residuals))
    as [avg [Eavg Eshape]].
  { destruct residuals; [congruence | discriminate]. }
  { apply Forall_forall. intros c Hc. apply in_map_iff in Hc as [r [<- Hr]].
    apply crop_shape.
    - pose proof (py_min_le _ _ Eh) as Hall. rewrite Forall_forall in Hall.
      apply Hall. now apply in_map.
    - pose proof (py_min_le _ _ Ew) as Hall. rewrite Forall_forall in Hall.
      apply Hall. now apply in_map. }
  exists min_h, min_w, avg. repeat split; try assumption.
  unfold Common.align_and_average. rewrite Eh, Ew. unfold lift.
  rewrite !bind_value. simpl. rewrite Eavg. rewrite bind_value. reflexivity.
Qed.

(** With no residual at all, the averaging step stops at [min]. *)
Lemma align_and_average_empty :
  Common.align_and_average (F:=F) [] =
  ([], inl (ValueError "min() arg is an empty sequence")).
Proof. reflexivity. Qed.

End Builder.

(** ** Reference-set validation and fingerprint construction *)

Section Pipelines.
Context {F : Type} {SF : Scalar F} (env : Env F).

Lemma cr2_suffix_has_extension (p : string) :
  Py.endswith p ".CR2" = true -> Strict.has_cr2_extension p = true.
Proof.
  intros E. apply endswith_inv in E as [q ->].
  unfold Strict.has_cr2_extension. rewrite lower_app. apply endswith_app.
Qed.

Lemma glob_CR2_suffix (ref_folder : string) :
  Forall (fun p => Py.endswith p ".CR2" = true) (Common.glob_CR2 env ref_folder).
Proof.
  apply Forall_forall. intros p Hp. unfold Common.glob_CR2 in Hp.
  apply in_flat_map in Hp as [[d names] [_ Hp]].
  apply in_map_iff in Hp as [name [<- Hname]].
  apply filter_In in Hname as [_ Hm].
  unfold Common.matches_star_CR2 in Hm. apply andb_true_iff in Hm as [_ Hm].
  apply endswith_inv in Hm as [stem ->].
  destruct (join_keeps_name d (stem ++ ".CR2")) as [q ->].
  rewrite <- string_app_assoc. apply endswith_app.
Qed.

(** How validation can end. *)
Lemma validate_references_cases (ref_files : list string) :
  (List.length ref_files < 15 /\
   Strict.validate_references env ref_files = ([], inl Strict.size_error)) \/
  (15 <= List.length ref_files /\
   exists bad, In bad ref_files /\ Strict.has_cr2_extension bad = false /\
     Strict.validate_references env ref_files = ([], inl (Strict.extension_error bad))) \/
  (15 <= List.length ref_files /\
   Forall (fun f => Strict.has_cr2_extension f = true) ref_files /\
   (outcome_of (Strict.validate_references env ref_files) = inr true \/
    exists msg, outcome_of (Strict.validate_references env ref_files) = inl (OSError msg))).
Proof.
  destruct (Nat.lt_ge_cases (List.length ref_files) 15) as [L|L].
  - left. split; [exact L | now apply validate_references_small].
  - right.
    destruct (find (fun f => negb (Strict.has_cr2_extension f)) ref_files) as [bad|] eqn:E.
    + left. split; [exact L|]. exists bad.
      apply find_some in E as E'. destruct E' as [Hin Hbad].
      apply negb_true_iff in Hbad. repeat split; try assumption.
      rewrite (validate_references_large _ _ L), check_extensions_find, E.
      reflexivity.
    + right. split; [exact L|].
      assert (Hall : Forall (fun f => Strict.has_cr2_extension f = true) ref_files).
      { apply Forall_forall. intros f Hf.
        pose proof (find_none _ _ E f Hf) as H. now apply negb_false_iff in H. }
      split; [exact Hall | now apply validate_references_past_extensions].
Qed.

(** The averaging step ends with a fingerprint or with the error of [min]. *)
Lemma align_and_average_cases (residuals : list (ndarray F)) :
  (exists fp, outcome_of (Common.align_and_average residuals) = inr fp) \/
  outcome_of (Common.align_and_average residuals) =
    inl (ValueError "min() arg is an empty sequence").
Proof.
  destruct residuals as [|r rs].
  - right. reflexivity.
  - left.
    assert (Hne : r :: rs <> []) by discriminate.
    destruct (align_and_average_nonempty (r :: rs) Hne) as (h & w & avg & _ & _ & _ & _ & E).
    rewrite E. eexists. reflexivity.
Qed.

Lemma strict_build_after_validation (ref_folder : string) :
  outcome_of (Strict.validate_references env (Common.glob_CR2 env ref_folder)) = inr true ->
  outcome_of (Strict.build_reference_fingerprint env ref_folder) =
  outcome_of (Common.align_and_average
                (Common.surviving_residuals env (Common.glob_CR2 env ref_folder))).
Proof.
  intros V. unfold Strict.build_reference_fingerprint.
  rewrite outcome_bind, V, outcome_bind, collect_residuals_outcome. reflexivity.
Qed.

Lemma lenient_build_large (ref_folder : string) :
  10 <= List.length (Common.glob_CR2 env ref_folder) ->
  outcome_of (Lenient.build_fingerprint env ref_folder) =
  outcome_of (Common.align_and_average
                (Common.surviving_residuals env (Common.glob_CR2 env ref_folder))).
Proof.
  intros L. unfold Lenient.build_fingerprint, Py.len_lt.
  apply Nat.ltb_ge in L. rewrite L.
  rewrite outcome_bind, collect_residuals_outcome. reflexivity.
Qed.

Lemma lenient_build_small (ref_folder : string) :
  List.length (Common.glob_CR2 env ref_folder) < 10 ->
  Lenient.build_fingerprint env ref_folder = ([], inl Lenient.size_error).
Proof.
  intros L. unfold Lenient.build_fingerprint, Py.len_lt.
  apply Nat.ltb_lt in L. now rewrite L.
Qed.

End Pipelines.

(** ** The size rule (C5) *)

(** C5, as stated, fails: the minimum is not a configuration parameter.
    Under a configured minimum of 12 the specification's size rule admits a
    set of 12 files, and the strict validator still rejects it for its size;
    the rule then refuses a set of 10 files, and the lenient builder still
    lets it past its size check. *)
Lemma size_minimum_not_configurable :
  let twelve := firstn 12 Sample.fifteen_paths in
  let ten_folder := Sample.world (F:=Binary32.float32)
                      (firstn 10 Sample.fifteen_names) Sample.no_file Sample.all_readable in
  Spec.size_rule 12 twelve = true /\
  outcome_of (Strict.validate_references (Sample.all_good (F:=Binary32.float32)) twelve)
    = inl Strict.size_error /\
  Spec.size_rule 12 (Common.glob_CR2 ten_folder "refs") = false /\
  outcome_of (Lenient.build_fingerprint ten_folder "refs") <> inl Lenient.size_error.
Proof.
  cbv zeta. repeat split; try (vm_compute; reflexivity).
  vm_compute. discriminate.
Qed.

(** C5 (amended): the strict validator rejects every set of 14 or fewer
    files with its size error and lets a set of 15 past the size rule; the
    lenient builder does the same at 9 and 10.  Each variant's size check is
    the specification's size rule at a minimum fixed in that variant's code:
    15 in [validate_references], 10 in [build_fingerprint]. *)
Theorem size_minimum_fixed_per_variant :
  forall (F : Type) (SF : Scalar F) (env : Env F)
         (ref_files : list string) (ref_folder : string),
    (List.length ref_files <= 14 ->
     Strict.validate_references env ref_files = ([], inl Strict.size_error)) /\
    (List.length ref_files = 15 ->
     outcome_of (Strict.validate_references env ref_files) <> inl Strict.size_error) /\
    (List.length (Common.glob_CR2 env ref_folder) <= 9 ->
     Lenient.build_fingerprint env ref_folder = ([], inl Lenient.size_error)) /\
    (List.length (Common.glob_CR2 env ref_folder) = 10 ->
     outcome_of (Lenient.build_fingerprint env ref_folder) <> inl Lenient.size_error) /\
    (outcome_of (Strict.validate_references env ref_files) = inl Strict.size_error <->
     Spec.size_rule 15 ref_files = false) /\
    (outcome_of (Lenient.build_fingerprint env ref_folder) = inl Lenient.size_error <->
     Spec.size_rule 10 (Common.glob_CR2 env ref_folder) = false).
Proof.
  intros F SF env ref_files ref_folder.
  assert (S15 : 15 <= List.length ref_files ->
                outcome_of (Strict.validate_references env ref_files) <> inl Strict.size_error).
  { intros L.
    destruct (validate_references_cases env ref_files)
      as [[L' _]|[(_ & bad & _ & _ & E)|(_ & _ & [E|[msg E]])]].
    - lia.
    - rewrite E. simpl. discriminate.
    - rewrite E. discriminate.
    - rewrite E. discriminate. }
  assert (S10 : 10 <= List.length (Common.glob_CR2 env ref_folder) ->
                outcome_of (Lenient.build_fingerprint env ref_folder) <> inl Lenient.size_error).
  { intros L. rewrite (lenient_build_large env _ L).
    destruct (align_and_average_cases
                (Common.surviving_residuals env (Common.glob_CR2 env ref_folder)))
      as [[fp E]|E]; rewrite E; discriminate. }
  repeat split.
  - intros L. apply validate_references_small. lia.
  - intros L. apply S15. lia.
  - intros L. apply lenient_build_small. lia.
  - intros L. apply S10. lia.
  - intros E. unfold Spec.size_rule. apply Nat.leb_gt.
    destruct (Nat.lt_ge_cases (List.length ref_files) 15) as [L|L]; [exact L|].
    now apply S15 in L.
  - unfold Spec.size_rule. intros E. apply Nat.leb_gt in E.
    now rewrite (validate_references_small env _ E).
  - intros E. unfold Spec.size_rule. apply Nat.leb_gt.
    destruct (Nat.lt_ge_cases (List.length (Common.glob_CR2 env ref_folder)) 10)
      as [L|L]; [exact L|].
    now apply S10 in L.
  - unfold Spec.size_rule. intros E. apply Nat.leb_gt in E.
    now rewrite (lenient_build_small env _ E).
Qed.

(** ** The extension rule (C6, C9) *)

(** C6, as stated, fails: a set can contain a file with another extension
    and be refused with the size error, not with an extension error. *)
Lemma small_set_fails_on_size_not_extension :
  In "holiday.jpg" ["holiday.jpg"] /\
  Strict.has_cr2_extension "holiday.jpg" = false /\
  Strict.validate_references (Sample.all_good (F:=Binary32.float32)) ["holiday.jpg"]
    = ([], inl Strict.size_error) /\
  (forall f, Strict.size_error <> Strict.extension_error f).
Proof.
  repeat split; try (vm_compute; reflexivity).
  - now left.
  - apply size_error_not_extension_error.
Qed.

(** The first element of a list that satisfies a test splits the list: the
    elements before it fail the test. *)
Lemma find_first_split {A} (p : A -> bool) (l : list A) (x : A) :
  find p l = Some x ->
  exists before after,
    l = (before ++ x :: after)%list /\
    Forall (fun y => p y = false) before /\ p x = true.
Proof.
  induction l as [|y l IH]; simpl; [discriminate|].
  destruct (p y) eqn:Py.
  - intros [= <-]. exists [], l. repeat split; [constructor | exact Py].
  - intros E. destruct (IH E) as (before & after & -> & Hb & Px).
    exists (y :: before), after. repeat split; [now constructor | exact Px].
Qed.

Lemma find_some_of_member {A} (p : A -> bool) (l : list A) (y : A) :
  In y l -> p y = true -> exists x, find p l = Some x.
Proof.
  induction l as [|z l IH]; intros Hin Py; [destruct Hin|]. simpl.
  destruct (p z) eqn:Pz; [eauto|].
  destruct Hin as [->|Hin]; [congruence | now apply IH].
Qed.

(** C6 (amended): a set of fewer than 15 files fails with the size error
    whatever its extensions.  For a set of at least 15 files, one file whose
    name does not end in [.cr2] case-insensitively makes validation fail for
    the whole set, before anything is logged, with the extension error that
    names the first such file of the set; when every name ends in [.cr2]
    case-insensitively ([.cr2], [.Cr2], [.CR2], ...) validation does not end
    with an extension error. *)
Theorem extension_rule_fails_whole_set :
  forall (F : Type) (SF : Scalar F) (env : Env F) (ref_files : list string),
    (List.length ref_files < 15 ->
     Strict.validate_references env ref_files = ([], inl Strict.size_error)) /\
    (15 <= List.length ref_files ->
     (exists f, In f ref_files /\ Strict.has_cr2_extension f = false) ->
     exists before bad after,
       ref_files = (before ++ bad :: after)%list /\
       Forall (fun f => Strict.has_cr2_extension f = true) before /\
       Strict.has_cr2_extension bad = false /\
       Strict.validate_references env ref_files
         = ([], inl (Strict.extension_error bad))) /\
    (15 <= List.length ref_files ->
     Forall (fun f => Strict.has_cr2_extension f = true) ref_files ->
     forall f, outcome_of (Strict.validate_references env ref_files)
               <> inl (Strict.extension_error f)) /\
    (forall stem ext, Py.lower ext = ".cr2" ->
                      Strict.has_cr2_extension (stem ++ ext) = true).
Proof.
  intros F SF env ref_files. split; [|split; [|split]].
  - apply validate_references_small.
  - intros L [f [Hin Hf]].
    destruct (find_some_of_member (fun f => negb (Strict.has_cr2_extension f))
                ref_files f Hin) as [bad E]; [now rewrite Hf|].
    destruct (find_first_split _ _ _ E) as (before & after & Hsplit & Hb & Hbad).
    exists before, bad, after. split; [exact Hsplit|]. split; [|split].
    + eapply Forall_impl; [|exact Hb]. intros g Hg. now apply negb_false_iff in Hg.
    + now apply negb_true_iff in Hbad.
    + rewrite (validate_references_large _ _ L), check_extensions_find, E.
      reflexivity.
  - intros L Hall f.
    destruct (validate_references_past_extensions env ref_files L Hall) as [E|[msg E]];
      rewrite E; discriminate.
  - intros stem ext E. unfold Strict.has_cr2_extension.
    rewrite lower_app, E. apply endswith_app.
Qed.

(** The fifteen sample files followed by a JPEG scan and a PNG: the error
    names the scan, the first of the two; the scan alone fails on its
    size. *)
Lemma extension_rule_fails_whole_set_witness :
  let files := (Sample.fifteen_paths ++ ["refs/scan.jpeg"; "refs/shot.png"])%list in
  let env := Sample.all_good (F:=Binary32.float32) in
  Strict.validate_references env files
    = ([], inl (Strict.extension_error "refs/scan.jpeg")) /\
  Strict.validate_references env ["refs/scan.jpeg"] = ([], inl Strict.size_error).
Proof.
  cbv zeta. split.
  - destruct (extension_rule_fails_whole_set _ _ (Sample.all_good (F:=Binary32.float32))
                (Sample.fifteen_paths ++ ["refs/scan.jpeg"; "refs/shot.png"])%list)
      as (_ & Hext & _).
    destruct Hext as (before & bad & after & Hsplit & Hb & Hbad & E).
    + vm_compute. lia.
    + exists "refs/shot.png". split; [|reflexivity].
      apply in_or_app. right. right. now left.
    + assert (Hname : bad = "refs/scan.jpeg").
      { vm_compute in E. inversion E. reflexivity. }
      rewrite E, Hname. reflexivity.
  - destruct (extension_rule_fails_whole_set _ _ (Sample.all_good (F:=Binary32.float32))
                ["refs/scan.jpeg"]) as (Hsize & _).
    apply Hsize. vm_compute. lia.
Defined.

(** C9: every path that [build_reference_fingerprint] hands to
    [validate_references] comes from the pattern [*.CR2] and ends in
    [.CR2]; rule 2 then raises nothing, and neither validation nor the
    whole fingerprint construction can end with the extension error. *)
Theorem glob_keeps_extension_error_unreachable :
  forall (F : Type) (SF : Scalar F) (env : Env F) (ref_folder : string),
    Forall (fun p => Py.endswith p ".CR2" = true) (Common.glob_CR2 env ref_folder) /\
    Strict.check_extensions (F:=F) (Common.glob_CR2 env ref_folder) = ([], inr tt) /\
    (forall f, outcome_of (Strict.validate_references env (Common.glob_CR2 env ref_folder))
               <> inl (Strict.extension_error f)) /\
    (forall f, outcome_of (Strict.build_reference_fingerprint env ref_folder)
               <> inl (Strict.extension_error f)).
Proof.
  intros F SF env ref_folder.
  pose proof (glob_CR2_suffix env ref_folder) as Hsuf.
  assert (Hall : Forall (fun f => Strict.has_cr2_extension f = true)
                        (Common.glob_CR2 env ref_folder)).
  { eapply Forall_impl; [|exact Hsuf]. intros p. apply cr2_suffix_has_extension. }
  assert (V : forall f, outcome_of (Strict.validate_references env (Common.glob_CR2 env ref_folder))
                        <> inl (Strict.extension_error f)).
  { intros f.
    destruct (validate_references_cases env (Common.glob_CR2 env ref_folder))
      as [[_ E]|[(_ & bad & Hbad & Hext & _)|(L & _ & _)]].
    - rewrite E. simpl. discriminate.
    - rewrite Forall_forall in Hall. rewrite (Hall bad Hbad) in Hext. discriminate.
    - destruct (validate_references_past_extensions env _ L Hall) as [E|[msg E]];
        rewrite E; discriminate. }
  repeat split.
  - exact Hsuf.
  - rewrite check_extensions_find, (find_none_all_cr2 _ Hall). reflexivity.
  - exact V.
  - intros f.
    destruct (outcome_of (Strict.validate_references env (Common.glob_CR2 env ref_folder)))
      as [e|[|]] eqn:E.
    + unfold Strict.build_reference_fingerprint. rewrite outcome_bind, E.
      intros [= H]. apply (V f). now rewrite H.
    + rewrite (strict_build_after_validation env _ E).
      destruct (align_and_average_cases
                  (Common.surviving_residuals env (Common.glob_CR2 env ref_folder)))
        as [[fp E']|E']; rewrite E'; discriminate.
    + exfalso.
      destruct (validate_references_cases env (Common.glob_CR2 env ref_folder))
        as [[_ E']|[(_ & bad & _ & _ & E')|(_ & _ & [E'|[msg E']])]];
        rewrite E' in E; discriminate.
Qed.

(** ** Fingerprint construction after skipped files (C2, C4) *)

(** When no file survives extraction, both builders end with the error that
    [min] raises on an empty sequence (given that the size rule and, in the
    strict pipeline, validation have passed). *)
Lemma no_survivor_ends_in_min_error {F : Type} {SF : Scalar F} (env : Env F)
    (ref_folder : string) :
  Common.surviving_residuals env (Common.glob_CR2 env ref_folder) = [] ->
  (outcome_of (Strict.validate_references env (Common.glob_CR2 env ref_folder)) = inr true ->
   outcome_of (Strict.build_reference_fingerprint env ref_folder)
     = inl (ValueError "min() arg is an empty sequence")) /\
  (10 <= List.length (Common.glob_CR2 env ref_folder) ->
   outcome_of (Lenient.build_fingerprint env ref_folder)
     = inl (ValueError "min() arg is an empty sequence")).
Proof.
  intros E. split.
  - intros V. rewrite (strict_build_after_validation env _ V), E. reflexivity.
  - intros L. rewrite (lenient_build_large env _ L), E. reflexivity.
Qed.

(** C2: on a folder of fifteen [.CR2] files that all fail to decode, both
    builders stop with [ValueError: min() arg is an empty sequence], the
    error of the reduction over the empty list of residuals; no error about
    unusable reference residuals is raised. *)
Theorem all_references_fail_ends_in_min_error :
  let env := Sample.all_corrupt (F:=Binary32.float32) in
  List.length (Common.glob_CR2 env "refs") = 15 /\
  outcome_of (Strict.validate_references env (Common.glob_CR2 env "refs")) = inr true /\
  Common.surviving_residuals env (Common.glob_CR2 env "refs") = [] /\
  outcome_of (Strict.build_reference_fingerprint env "refs")
    = inl (ValueError "min() arg is an empty sequence") /\
  outcome_of (Lenient.build_fingerprint env "refs")
    = inl (ValueError "min() arg is an empty sequence").
Proof. cbv zeta. repeat split; vm_compute; reflexivity. Qed.

(** C4: when the reference set has passed validation and the files that
    survive extraction are at least one and fewer than 15, the strict
    builder returns a fingerprint: the survivors cropped to their smallest
    height and width, averaged and divided by the standard deviation of the
    average.  The count of survivors is not compared with the minimum. *)
Theorem fingerprint_built_from_few_survivors :
  forall (F : Type) (SF : Scalar F) (env : Env F) (ref_folder : string),
    outcome_of (Strict.validate_references env (Common.glob_CR2 env ref_folder)) = inr true ->
    1 <= List.length (Common.surviving_residuals env (Common.glob_CR2 env ref_folder)) < 15 ->
    15 <= List.length (Common.glob_CR2 env ref_folder) /\
    exists min_h min_w avg,
      py_min (map nrows (Common.surviving_residuals env (Common.glob_CR2 env ref_folder)))
        = inr min_h /\
      py_min (map ncols (Common.surviving_residuals env (Common.glob_CR2 env ref_folder)))
        = inr min_w /\
      mean_axis0 (map (crop min_h min_w)
                      (Common.surviving_residuals env (Common.glob_CR2 env ref_folder)))
        = inr avg /\
      outcome_of (Strict.build_reference_fingerprint env ref_folder)
        = inr (div_scalar avg (std avg)).
Proof.
  intros F SF env ref_folder V [L1 _]. split.
  - destruct (validate_references_cases env (Common.glob_CR2 env ref_folder))
      as [[_ E]|[(L & _)|(L & _)]]; try exact L.
    rewrite E in V. discriminate.
  - assert (Hne : Common.surviving_residuals env (Common.glob_CR2 env ref_folder) <> []).
    { intros E. rewrite E in L1. simpl in L1. lia. }
    destruct (align_and_average_nonempty _ Hne) as (h & w & avg & Eh & Ew & Eavg & _ & E).
    exists h, w, avg. repeat split; try assumption.
    rewrite (strict_build_after_validation env _ V), E. reflexivity.
Qed.

(** The sample folder in which two of the fifteen files decode. *)
Lemma fingerprint_built_from_few_survivors_witness :
  let env := Sample.two_good (F:=Binary32.float32) in
  List.length (Common.surviving_residuals env (Common.glob_CR2 env "refs")) = 2 /\
  exists fp, outcome_of (Strict.build_reference_fingerprint env "refs") = inr fp.
Proof.
  cbv zeta. split; [vm_compute; reflexivity|].
  destruct (fingerprint_built_from_few_survivors _ _ (Sample.two_good (F:=Binary32.float32)) "refs")
    as (_ & h & w & avg & _ & _ & _ & E).
  - vm_compute. reflexivity.
  - vm_compute. lia.
  - exists (div_scalar avg (std avg)). exact E.
Defined.

(** ** The custody log comes first (C7) *)

Section Custody.
Context {F : Type} {SF : Scalar F} (env : Env F).

(** Rule 3 decodes nothing. *)
Lemma log_hashes_no_imread (ref_files : list string) :
  forall ev, In ev (trace_of (Strict.log_hashes env ref_files)) -> ~ is_imread ev.
Proof.
  induction ref_files as [|f rest IH]; intros ev Hin.
  - destruct Hin.
  - rewrite log_hashes_cons, trace_bind in Hin. simpl in Hin.
    destruct Hin as [<-|Hin]; [intros [p H]; discriminate|].
    rewrite trace_bind, trace_raising, outcome_raising in Hin. simpl in Hin.
    destruct (read_binary env f) as [msg|data]; [destruct Hin|].
    rewrite trace_bind in Hin. simpl in Hin.
    destruct Hin as [<-|Hin]; [intros [p H]; discriminate|].
    now apply IH.
Qed.

(** Validation decodes nothing. *)
Lemma validate_references_no_imread (ref_files : list string) :
  forall ev, In ev (trace_of (Strict.validate_references env ref_files)) -> ~ is_imread ev.
Proof.
  intros ev Hin.
  destruct (validate_references_cases env ref_files)
    as [[_ E]|[(_ & bad & _ & _ & E)|(L & Hall & _)]].
  - rewrite E in Hin. destruct Hin.
  - rewrite E in Hin. destruct Hin.
  - rewrite (validate_references_large _ _ L), check_extensions_find,
      (find_none_all_cr2 _ Hall) in Hin.
    rewrite !trace_bind in Hin. simpl in Hin.
    destruct Hin as [<-|Hin]; [intros [p H]; discriminate|].
    apply in_app_or in Hin as [Hin|Hin]; [now apply (log_hashes_no_imread ref_files)|].
    destruct (outcome_of (Strict.log_hashes env ref_files)); destruct Hin.
Qed.

(** When every file can be read, rule 3 ends normally with one record per
    file. *)
Lemma log_hashes_all_readable (ref_files : list string) :
  (forall f, In f ref_files -> exists data, read_binary env f = inr data) ->
  outcome_of (Strict.log_hashes env ref_files) = inr tt /\
  forall f data, In f ref_files -> read_binary env f = inr data ->
    In (Stdout (Strict.hash_record env f data)) (trace_of (Strict.log_hashes env ref_files)).
Proof.
  induction ref_files as [|f0 rest IH]; intros Hread.
  - split; [reflexivity | intros f data []].
  - destruct IH as [IHo IHt]; [intros f Hf; apply Hread; now right|].
    destruct (Hread f0 (or_introl eq_refl)) as [data0 E0].
    rewrite log_hashes_cons. split.
    + rewrite !outcome_bind, outcome_raising, E0. simpl. rewrite outcome_bind. exact IHo.
    + intros f data Hin E.
      rewrite trace_bind. simpl. right.
      rewrite trace_bind, trace_raising, outcome_raising, E0. simpl.
      rewrite trace_bind. simpl.
      destruct Hin as [<-|Hin].
      * left. rewrite E in E0. now injection E0 as ->.
      * right. now apply IHt.
Qed.

Lemma validate_references_all_readable (ref_files : list string) :
  15 <= List.length ref_files ->
  Forall (fun f => Strict.has_cr2_extension f = true) ref_files ->
  (forall f, In f ref_files -> exists data, read_binary env f = inr data) ->
  outcome_of (Strict.validate_references env ref_files) = inr true /\
  forall f data, In f ref_files -> read_binary env f = inr data ->
    In (Stdout (Strict.hash_record env f data))
       (trace_of (Strict.validate_references env ref_files)).
Proof.
  intros L Hall Hread.
  destruct (log_hashes_all_readable ref_files Hread) as [Ho Ht].
  rewrite (validate_references_large _ _ L), check_extensions_find,
    (find_none_all_cr2 _ Hall). split.
  - rewrite !outcome_bind. simpl. now rewrite Ho.
  - intros f data Hin E. rewrite !trace_bind. simpl. right.
    apply in_or_app. left. now apply Ht.
Qed.

(** Extraction starts by decoding its file. *)
Lemma extract_residual_trace (img_path : string) :
  trace_of (Common.extract_residual env img_path) = [ImRead img_path].
Proof.
  unfold Common.extract_residual.
  rewrite trace_bind. simpl. rewrite trace_bind, trace_raising, outcome_raising.
  destruct (imread_postprocess env img_path) as [msg|rgb]; [reflexivity|].
  rewrite trace_bind. simpl.
  now destruct (Np.sub (cvtColor_RGB2GRAY env rgb) (GaussianBlur env (cvtColor_RGB2GRAY env rgb))).
Qed.

(** The loop decodes every file it is given. *)
Lemma collect_residuals_decodes_all (ref_files : list string) (acc : list (ndarray F)) :
  forall f, In f ref_files ->
    In (ImRead f) (trace_of (Common.collect_residuals env ref_files acc)).
Proof.
  revert acc. induction ref_files as [|f0 rest IH]; intros acc f Hin; [destruct Hin|].
  rewrite collect_residuals_cons, trace_bind. apply in_or_app.
  destruct Hin as [<-|Hin].
  - left. rewrite trace_try_except, trace_bind, extract_residual_trace. now left.
  - right. rewrite outcome_try_except, !outcome_bind.
    destruct (outcome_of (Common.extract_residual env f0)) as [e|res].
    + rewrite outcome_bind. simpl. now apply IH.
    + rewrite outcome_bind. simpl. now apply IH.
Qed.

End Custody.

(** In a trace [pre ++ post], an event of [pre] comes before every event
    that cannot occur in [pre]. *)
Lemma prefix_event_is_earlier {A} (P : A -> Prop) (pre post : list A) (x : A) :
  In x pre -> (forall y, In y pre -> ~ P y) ->
  exists j, nth_error (pre ++ post) j = Some x /\
            forall i y, nth_error (pre ++ post) i = Some y -> P y -> j < i.
Proof.
  intros Hin Hpre. apply In_nth_error in Hin as [j Hj].
  assert (Hlt : j < List.length pre) by (apply nth_error_Some; congruence).
  exists j. split.
  - now rewrite nth_error_app1.
  - intros i y Hi Py.
    destruct (Nat.lt_ge_cases i (List.length pre)) as [Hi'|Hi']; [|lia].
    rewrite nth_error_app1 in Hi by exact Hi'.
    apply nth_error_In in Hi. now apply Hpre in Hi.
Qed.

(** C7, as stated, fails: a set can pass the size and extension rules and
    still get no hash record for some member.  In the sample folder whose
    third file cannot be opened, validation stops at that file with the
    error of [open]; the fourth file never gets its record. *)
Lemma unreadable_member_stops_the_custody_log :
  let env := Sample.one_unreadable (F:=Binary32.float32) in
  let ref_files := Common.glob_CR2 env "refs" in
  Py.len_lt ref_files 15 = false /\
  Strict.check_extensions (F:=Binary32.float32) ref_files = ([], inr tt) /\
  In "refs/d.CR2" ref_files /\
  (forall data, ~ In (Stdout (Strict.hash_record env "refs/d.CR2" data))
                     (trace_of (Strict.build_reference_fingerprint env "refs"))) /\
  outcome_of (Strict.build_reference_fingerprint env "refs")
    = inl (OSError "Permission denied").
Proof.
  cbv zeta. repeat split; try (vm_compute; reflexivity).
  - vm_compute. tauto.
  - intros data H. vm_compute in H.
    repeat (destruct H as [H|H]; [discriminate H|]). exact H.
Qed.

(** C7 (amended): for every reference set that [build_reference_fingerprint]
    collects, that passes the size rule (the extension rule then passes too)
    and whose files can all be read, the hash record of every member is
    printed, and it is printed before any RAW file is decoded; every member
    is decoded later in the run. *)
Theorem hash_records_precede_pixel_work :
  forall (F : Type) (SF : Scalar F) (env : Env F) (ref_folder : string),
    15 <= List.length (Common.glob_CR2 env ref_folder) ->
    (forall f, In f (Common.glob_CR2 env ref_folder) ->
               exists data, read_binary env f = inr data) ->
    forall f data,
      In f (Common.glob_CR2 env ref_folder) -> read_binary env f = inr data ->
      In (ImRead f) (trace_of (Strict.build_reference_fingerprint env ref_folder)) /\
      exists j,
        nth_error (trace_of (Strict.build_reference_fingerprint env ref_folder)) j
          = Some (Stdout (Strict.hash_record env f data)) /\
        forall i ev,
          nth_error (trace_of (Strict.build_reference_fingerprint env ref_folder)) i = Some ev ->
          is_imread ev -> j < i.
Proof.
  intros F SF env ref_folder L Hread f data Hin E.
  assert (Hall : Forall (fun f => Strict.has_cr2_extension f = true)
                        (Common.glob_CR2 env ref_folder)).
  { eapply Forall_impl; [|apply glob_CR2_suffix]. intros p. apply cr2_suffix_has_extension. }
  destruct (validate_references_all_readable env _ L Hall Hread) as [Vo Vt].
  unfold Strict.build_reference_fingerprint. rewrite trace_bind, Vo. split.
  - apply in_or_app. right. rewrite trace_bind. apply in_or_app. left.
    now apply collect_residuals_decodes_all.
  - apply (prefix_event_is_earlier is_imread).
    + now apply Vt.
    + apply validate_references_no_imread.
Qed.

(** The sample folder in which every file can be read and decoded. *)
Lemma hash_records_precede_pixel_work_witness :
  let env := Sample.all_good (F:=Binary32.float32) in
  let trace := trace_of (Strict.build_reference_fingerprint env "refs") in
  15 <= List.length (Common.glob_CR2 env "refs") /\
  In (ImRead "refs/b.CR2") trace /\
  exists j,
    nth_error trace j = Some (Stdout "  b.CR2 -> SHA256: 4352") /\
    forall i ev, nth_error trace i = Some ev -> is_imread ev -> j < i.
Proof.
  cbv zeta.
  assert (L : 15 <= List.length (Common.glob_CR2 (Sample.all_good (F:=Binary32.float32)) "refs"))
    by (vm_compute; lia).
  split; [exact L|].
  apply (hash_records_precede_pixel_work _ _ (Sample.all_good (F:=Binary32.float32)) "refs" L
           (fun f _ => ex_intro _ [Byte.x43; Byte.x52] eq_refl)
           "refs/b.CR2" [Byte.x43; Byte.x52]).
  - vm_compute. tauto.
  - reflexivity.
Defined.

(** ** A test residual smaller than the fingerprint (C10) *)

Lemma broadcast_dim_mismatch (n m : nat) :
  n <> m -> n <> 1 -> m <> 1 -> broadcast_dim n m = None.
Proof.
  intros Hnm Hn Hm. unfold broadcast_dim.
  apply Nat.eqb_neq in Hnm, Hn, Hm. now rewrite Hnm, Hn, Hm.
Qed.

Lemma mul_shape_mismatch {F : Type} {SF : Scalar F} (a b : ndarray F) :
  (nrows a <> nrows b /\ nrows a <> 1 /\ nrows b <> 1) \/
  (ncols a <> ncols b /\ ncols a <> 1 /\ ncols b <> 1) ->
  Np.mul a b = inl broadcast_error.
Proof.
  unfold Np.mul, broadcast2.
  intros [(H1 & H2 & H3)|(H1 & H2 & H3)].
  - now rewrite (broadcast_dim_mismatch _ _ H1 H2 H3).
  - rewrite (broadcast_dim_mismatch _ _ H1 H2 H3).
    now destruct (broadcast_dim (nrows a) (nrows b)).
Qed.

(** C10: when extraction of the test image gives a residual that is
    smaller than the fingerprint in height or in width, and no height or
    width involved is 1, the crop is smaller than the fingerprint and
    [compare_to_fingerprint] ends, in both pipelines, with the
    shape-mismatch error of the element-wise product; nothing is saved and
    no score is printed. *)
Theorem smaller_test_residual_raises_shape_mismatch :
  forall (F : Type) (SF : Scalar F) (env : Env F)
         (test_img : string) (fingerprint res_test : ndarray F),
    outcome_of (Common.extract_residual env test_img) = inr res_test ->
    nrows res_test <> 1 -> ncols res_test <> 1 ->
    nrows fingerprint <> 1 -> ncols fingerprint <> 1 ->
    nrows res_test < nrows fingerprint \/ ncols res_test < ncols fingerprint ->
    shape (crop (nrows fingerprint) (ncols fingerprint) res_test) <> shape fingerprint /\
    Strict.compare_to_fingerprint env test_img fingerprint
      = ([ImRead test_img], inl broadcast_error) /\
    Lenient.compare_to_fingerprint env test_img fingerprint
      = ([ImRead test_img], inl broadcast_error).
Proof.
  intros F SF env test_img fp res E Hr Hc Hfr Hfc Hsmall.
  assert (Hmul : Np.mul (crop (nrows fp) (ncols fp) res) fp = inl broadcast_error).
  { apply mul_shape_mismatch. unfold crop. simpl. destruct Hsmall as [H|H].
    - left. repeat split; lia.
    - right. repeat split; lia. }
  assert (Hcmp : forall outprefix,
             Common.compare_to_fingerprint env outprefix test_img fp
             = ([ImRead test_img], inl broadcast_error)).
  { intros outprefix. unfold Common.compare_to_fingerprint.
    rewrite (M_eta (Common.extract_residual env test_img)), extract_residual_trace, E.
    rewrite bind_value. unfold shape, Common.normalized_correlation.
    rewrite Hmul. reflexivity. }
  repeat split.
  - unfold shape, crop. simpl. intros [= H1 H2]. lia.
  - apply Hcmp.
  - apply Hcmp.
Qed.

(** A 2x2 test residual against a 3x3 fingerprint. *)
Lemma smaller_test_residual_raises_shape_mismatch_witness :
  let env := Sample.uniform_file (F:=Binary32.float32) in
  let fingerprint := mk 3 3 (fun _ _ => S754_zero false) in
  Strict.compare_to_fingerprint env "flat.CR2" fingerprint
    = ([ImRead "flat.CR2"], inl broadcast_error).
Proof.
  cbv zeta.
  destruct (outcome_of (Common.extract_residual (Sample.uniform_file (F:=Binary32.float32)) "flat.CR2"))
    as [e|res] eqn:E; [vm_compute in E; discriminate E|].
  assert (S : shape res = (2, 2)).
  { vm_compute in E. injection E as <-. reflexivity. }
  unfold shape in S. injection S as Sr Sc.
  apply (smaller_test_residual_raises_shape_mismatch _ _ _ _
           (mk 3 3 (fun _ _ => S754_zero false)) res E);
    unfold Binary32.float32 in *.
  - rewrite Sr. discriminate.
  - rewrite Sc. discriminate.
  - simpl. discriminate.
  - simpl. discriminate.
  - left. rewrite Sr. simpl. lia.
Defined.

(** ** Arrays element by element *)

Section ArrayFacts.
Context {F : Type} {SF : Scalar F}.

Lemma flat_map_ext_on {A B} (f g : A -> list B) (l : list A) :
  (forall x, In x l -> f x = g x) -> flat_map f l = flat_map g l.
Proof.
  induction l as [|x l IH]; simpl; intros H; [reflexivity|].
  rewrite (H x (or_introl eq_refl)), IH; [reflexivity|].
  intros y Hy. apply H. now right.
Qed.

(** Two arrays of one shape with the same elements inside that shape have
    the same elements in row-major order. *)
Lemma ravel_ext (a b : ndarray F) :
  nrows a = nrows b -> ncols a = ncols b ->
  (forall i j, i < nrows a -> j < ncols a -> elem a i j = elem b i j) ->
  ravel a = ravel b.
Proof.
  intros Hr Hc He. unfold ravel. rewrite <- Hr, <- Hc.
  apply flat_map_ext_on. intros i Hi. apply map_ext_in. intros j Hj.
  apply in_seq in Hi, Hj. apply He; lia.
Qed.

Lemma ravel_map_nd (f : F -> F) (a : ndarray F) :
  ravel (map_nd f a) = map f (ravel a).
Proof.
  unfold ravel, map_nd. simpl.
  induction (seq 0 (nrows a)) as [|i more IH]; simpl; [reflexivity|].
  now rewrite IH, map_app, map_map.
Qed.

Lemma broadcast_dim_same (n : nat) : broadcast_dim n n = Some n.
Proof. unfold broadcast_dim. now rewrite Nat.eqb_refl. Qed.

(** On arrays of one shape the element-wise operations succeed. *)
Lemma broadcast2_same_shape (op : F -> F -> F) (a b : ndarray F) :
  shape a = shape b ->
  exists c, broadcast2 op a b = inr c /\ shape c = shape a /\
            ravel c = ravel (mk (nrows a) (ncols a)
                               (fun i j => op (elem a i j) (elem b i j))).
Proof.
  unfold shape. intros [= Hr Hc]. unfold broadcast2.
  rewrite <- Hr, <- Hc, !broadcast_dim_same.
  eexists. split; [reflexivity|]. split; [reflexivity|].
  apply ravel_ext; simpl; try reflexivity.
  intros i j Hi Hj. unfold bidx.
  destruct (Nat.eqb_spec (nrows a) 1) as [E1|_], (Nat.eqb_spec (ncols a) 1) as [E2|_];
    try replace i with 0 by lia; try replace j with 0 by lia; reflexivity.
Qed.

(** The correlation score is symmetric whenever the scalar product is. *)
Lemma normalized_correlation_comm (a b : ndarray F) :
  (forall x y : F, fmul x y = fmul y x) ->
  shape a = shape b ->
  exists score, Common.normalized_correlation a b = inr score /\
                Common.normalized_correlation b a = inr score.
Proof.
  intros Hcomm Hs. unfold Common.normalized_correlation, Np.mul.
  destruct (broadcast2_same_shape fmul a b Hs) as (ab & -> & _ & Eab).
  destruct (broadcast2_same_shape fmul b a (eq_sym Hs)) as (ba & -> & _ & Eba).
  eexists. split; [reflexivity|]. f_equal.
  assert (E : sum ba = sum ab).
  { unfold sum. rewrite Eab, Eba. f_equal.
    unfold shape in Hs. injection Hs as Hr Hc.
    apply ravel_ext; simpl; auto. }
  rewrite E. f_equal. apply Hcomm.
Qed.

End ArrayFacts.

(** ** binary32 arithmetic *)

Lemma float32_mul_comm (x y : Binary32.float32) : fmul x y = fmul y x.
Proof.
  change (SFmul Binary32.prec Binary32.emax x y = SFmul Binary32.prec Binary32.emax y x).
  unfold SFmul.
  destruct x as [sx|sx| |sx mx ex], y as [sy|sy| |sy my ey];
    try reflexivity; try (now rewrite xorb_comm).
  now rewrite xorb_comm, Pos.mul_comm, Z.add_comm.
Qed.

(** Dividing by a zero gives a NaN or an infinity, whatever is divided. *)
Lemma float32_div_by_zero (x z : Binary32.float32) :
  Binary32.is_zero z = true ->
  Binary32.is_nan (fdiv x z) || Binary32.is_inf (fdiv x z) = true.
Proof.
  destruct z as [sz|sz| |sz mz ez]; try discriminate. intros _.
  change (fdiv x (S754_zero sz)) with (SFdiv Binary32.prec Binary32.emax x (S754_zero sz)).
  destruct x; reflexivity.
Qed.

(** ** The correlation score is symmetric (C8) *)

(** C8: on two grids of one shape the normalized cross-correlation is a
    score, and it is the same score with the operands swapped (exactly, in
    binary32 arithmetic). *)
Theorem normalized_correlation_symmetric :
  forall a b : ndarray Binary32.float32,
    shape a = shape b ->
    exists score, Common.normalized_correlation a b = inr score /\
                  Common.normalized_correlation b a = inr score.
Proof. intros a b Hs. apply normalized_correlation_comm; [exact float32_mul_comm | exact Hs]. Qed.

(** Two 1x2 grids. *)
Lemma normalized_correlation_symmetric_witness :
  let a := mk 1 2 (fun _ j => Binary32.of_Z (if Nat.eqb j 0 then 3 else -1)) in
  let b := mk 1 2 (fun _ j => Binary32.of_Z (if Nat.eqb j 0 then 2 else 5)) in
  exists score, Common.normalized_correlation a b = inr score /\
                Common.normalized_correlation b a = inr score.
Proof. cbv zeta. apply normalized_correlation_symmetric. reflexivity. Defined.

(** ** A residual with zero standard deviation (C3) *)

(** C3: when the raw residual has standard deviation zero,
    [extract_residual] raises nothing: it returns a grid of the residual's
    shape in which every element is a NaN or an infinity. *)
Theorem zero_std_returns_invalid_grid :
  forall (env : Env Binary32.float32) (img_path : string) (rgb : raster)
         (raw : ndarray Binary32.float32),
    imread_postprocess env img_path = inr rgb ->
    Np.sub (cvtColor_RGB2GRAY env rgb) (GaussianBlur env (cvtColor_RGB2GRAY env rgb))
      = inr raw ->
    Binary32.is_zero (std raw) = true ->
    exists residual,
      Common.extract_residual env img_path = ([ImRead img_path], inr residual) /\
      shape residual = shape raw /\
      forall i j, Binary32.is_nan (elem residual i j)
                  || Binary32.is_inf (elem residual i j) = true.
Proof.
  intros env img_path rgb raw Hrgb Hraw Hz.
  exists (div_scalar raw (std raw)). repeat split.
  - unfold Common.extract_residual, emit. rewrite bind_value, Hrgb.
    unfold Common.raising, ret. rewrite bind_value. cbv zeta. rewrite Hraw.
    unfold lift. rewrite bind_value. reflexivity.
  - intros i j. unfold div_scalar, map_nd. cbn [elem].
    now apply float32_div_by_zero.
Qed.

(** The uniform 2x2 sample raster: its raw residual is all zeros. *)
Lemma zero_std_returns_invalid_grid_witness :
  exists residual,
    Strict.extract_residual (Sample.uniform_file (F:=Binary32.float32)) "flat.CR2"
      = ([ImRead "flat.CR2"], inr residual) /\
    shape residual = (2, 2) /\
    forall i j, Binary32.is_nan (elem residual i j)
                || Binary32.is_inf (elem residual i j) = true.
Proof.
  apply (zero_std_returns_invalid_grid
           (Sample.uniform_file (F:=Binary32.float32)) "flat.CR2"
           Sample.uniform_raster _ eq_refl eq_refl).
  vm_compute. reflexivity.
Defined.

(** On the uniform sample raster every element of the returned grid is a NaN. *)
Example uniform_raster_gives_nan_grid :
  match outcome_of (Strict.extract_residual
                      (Sample.uniform_file (F:=Binary32.float32)) "flat.CR2") with
  | inr residual => ravel residual = [S754_nan; S754_nan; S754_nan; S754_nan]
  | inl _ => False
  end.
Proof. vm_compute. reflexivity. Qed.

(** ** Rounding in the normalisation *)

(** On the 1x3 image with luminances 5, 1 and 2 the residual returned in
    binary32 has a standard deviation one unit in the last place below 1:
    the normalisation is exact up to rounding only. *)
Example residual_std_rounds_below_one :
  match outcome_of (Strict.extract_residual
                      (Sample.world (F:=Binary32.float32) []
                         (fun _ => Some (Sample.grey_raster 1 3
                                           (fun _ j => match j with
                                                       | 0 => 5%Z
                                                       | 1 => 1%Z
                                                       | _ => 2%Z
                                                       end)))
                         Sample.all_readable) "shot.CR2") with
  | inr residual => std residual = S754_finite false 16777215 (-24)
  | inl _ => False
  end.
Proof. vm_compute. reflexivity. Qed.

(** * Further properties of the scripts *)

(** ** Extraction from a file that decodes *)

(** Extraction on a file, for a blur that keeps the shape of its input:
    used to run the sample worlds. *)
Lemma extract_residual_cases {F : Type} {SF : Scalar F} (env : Env F)
    (img_path : string) :
  (forall g, shape (GaussianBlur env g) = shape g) ->
  match imread_postprocess env img_path with
  | inl msg =>
      Common.extract_residual env img_path
      = ([ImRead img_path], inl (LibRawError msg))
  | inr rgb =>
      exists residual,
        Common.extract_residual env img_path = ([ImRead img_path], inr residual) /\
        shape residual = shape (cvtColor_RGB2GRAY env rgb)
  end.
Proof.
  intros Hblur.
  destruct (imread_postprocess env img_path) as [msg|rgb] eqn:E.
  - unfold Common.extract_residual, emit. rewrite bind_value, E. reflexivity.
  - destruct (broadcast2_same_shape fsub (cvtColor_RGB2GRAY env rgb)
                (GaussianBlur env (cvtColor_RGB2GRAY env rgb)))
      as (raw & Eraw & Hs & _).
    + symmetry. apply Hblur.
    + exists (div_scalar raw (std raw)). split; [|exact Hs].
      unfold Common.extract_residual, emit. rewrite bind_value, E.
      unfold Common.raising, ret. rewrite bind_value. cbv zeta.
      unfold Np.sub. rewrite Eraw. unfold lift. rewrite bind_value. reflexivity.
Qed.

(** In the sample worlds every file that decodes gives a residual of the
    shape of its raster. *)
Lemma sample_extract_residual {F : Type} {SF : Scalar F}
    (names : list string) (decode : string -> option raster)
    (unreadable : string -> bool) (p : string) (rgb : raster) :
  decode p = Some rgb ->
  exists residual,
    outcome_of (Common.extract_residual (Sample.world names decode unreadable) p)
      = inr residual /\
    nrows residual = nrows rgb /\ ncols residual = ncols rgb.
Proof.
  intros D.
  pose proof (extract_residual_cases
                (Sample.world names decode unreadable) p (fun g => eq_refl)) as H.
  cbn [imread_postprocess Sample.world] in H. rewrite D in H.
  destruct H as (residual & E & Hs). exists residual.
  rewrite E. split; [reflexivity|].
  unfold shape in Hs. now injection Hs.
Qed.

(** ** The residual loop and the builders *)

Section LoopFacts.
Context {F : Type} {SF : Scalar F} (env : Env F).

Lemma try_extract_trace (f : string) (acc : list (ndarray F)) :
  trace_of
    (try_except
       (res <- Common.extract_residual env f ;;
        print ("[+] Processed " ++ f) ;;;
        ret (acc ++ [res])%list)
       (fun e =>
          print ("[!] Skipping " ++ f ++ ", error: " ++ str_of_exn e) ;;;
          ret acc))
  = [ImRead f; Stdout (Common.notice env f)].
Proof.
  rewrite trace_try_except, trace_bind, outcome_bind, extract_residual_trace.
  unfold Common.notice.
  destruct (outcome_of (Common.extract_residual env f)) as [e|res].
  - rewrite trace_bind. reflexivity.
  - rewrite trace_bind, outcome_bind. reflexivity.
Qed.

Lemma collect_residuals_trace (ref_files : list string) (acc : list (ndarray F)) :
  trace_of (Common.collect_residuals env ref_files acc)
  = flat_map (fun f => [ImRead f; Stdout (Common.notice env f)]) ref_files.
Proof.
  revert acc. induction ref_files as [|f rest IH]; intros acc; [reflexivity|].
  rewrite collect_residuals_cons, trace_bind, try_extract_trace.
  rewrite outcome_try_except, !outcome_bind.
  destruct (outcome_of (Common.extract_residual env f)) as [e|res];
    rewrite outcome_bind; simpl; now rewrite IH.
Qed.

Lemma align_and_average_trace (residuals : list (ndarray F)) :
  trace_of (Common.align_and_average residuals) = [].
Proof.
  destruct residuals as [|r rs]; [reflexivity|].
  assert (Hne : r :: rs <> []) by discriminate.
  destruct (align_and_average_nonempty (r :: rs) Hne) as (h & w & avg & _ & _ & _ & _ & E).
  now rewrite E.
Qed.

End LoopFacts.

(** X1: the loop of the builders handles every reference file, in order:
    it decodes the file and prints exactly one line for it, the
    [[+] Processed] notice when extraction succeeds and the [[!] Skipping]
    notice with the error's text when it raises; it never raises itself and
    keeps the residuals of the files that succeeded. *)
Theorem residual_loop_logs_every_file :
  forall (F : Type) (SF : Scalar F) (env : Env F) (ref_files : list string),
    Common.collect_residuals env ref_files []
    = (flat_map (fun f => [ImRead f; Stdout (Common.notice env f)]) ref_files,
       inr (Common.surviving_residuals env ref_files)).
Proof.
  intros F SF env ref_files.
  rewrite (M_eta (Common.collect_residuals env ref_files [])).
  now rewrite collect_residuals_trace, collect_residuals_outcome.
Qed.

(** X2: the lenient builder ends in one of three ways.  With fewer than 10
    matching files it raises its size error before touching any file.
    Otherwise it decodes every file and prints one notice per file, nothing
    else (no file is hashed), and returns a fingerprint when at least one
    file survives; when none does it ends with the error of [min].  An error
    of the decoder never leaves the builder. *)
Theorem lenient_build_outcomes :
  forall (F : Type) (SF : Scalar F) (env : Env F) (ref_folder : string),
    let ref_files := Common.glob_CR2 env ref_folder in
    let notices := flat_map (fun f => [ImRead f; Stdout (Common.notice env f)]) ref_files in
    (List.length ref_files < 10 /\
     Lenient.build_fingerprint env ref_folder = ([], inl Lenient.size_error)) \/
    (10 <= List.length ref_files /\
     Common.surviving_residuals env ref_files = [] /\
     Lenient.build_fingerprint env ref_folder
       = (notices, inl (ValueError "min() arg is an empty sequence"))) \/
    (10 <= List.length ref_files /\
     Common.surviving_residuals env ref_files <> [] /\
     exists fp, Lenient.build_fingerprint env ref_folder = (notices, inr fp)).
Proof.
  intros F SF env ref_folder. cbv zeta.
  destruct (Nat.lt_ge_cases (List.length (Common.glob_CR2 env ref_folder)) 10) as [L|L].
  - left. split; [exact L | now apply lenient_build_small].
  - right.
    assert (T : trace_of (Lenient.build_fingerprint env ref_folder)
                = flat_map (fun f => [ImRead f; Stdout (Common.notice env f)])
                           (Common.glob_CR2 env ref_folder)).
    { unfold Lenient.build_fingerprint, Py.len_lt.
      apply Nat.ltb_ge in L. rewrite L.
      rewrite trace_bind, collect_residuals_trace, collect_residuals_outcome.
      now rewrite align_and_average_trace, app_nil_r. }
    pose proof (lenient_build_large env ref_folder L) as O.
    rewrite (M_eta (Lenient.build_fingerprint env ref_folder)), T, O.
    destruct (Common.surviving_residuals env (Common.glob_CR2 env ref_folder))
      as [|r rs] eqn:E.
    + left. split; [exact L|]. split; reflexivity.
    + right. split; [exact L|]. split; [discriminate|].
      assert (Hne : r :: rs <> []) by discriminate.
      destruct (align_and_average_nonempty (r :: rs) Hne)
        as (h & w & avg & _ & _ & _ & _ & E').
      rewrite E'. eexists. reflexivity.
Qed.

(** X3: when validation raises, the strict builder raises the same
    exception at once: its trace is the one of validation and no RAW file is
    decoded. *)
Theorem failed_validation_stops_strict_build :
  forall (F : Type) (SF : Scalar F) (env : Env F) (ref_folder : string) (e : exn),
    outcome_of (Strict.validate_references env (Common.glob_CR2 env ref_folder)) = inl e ->
    Strict.build_reference_fingerprint env ref_folder
      = (trace_of (Strict.validate_references env (Common.glob_CR2 env ref_folder)), inl e) /\
    forall ev, In ev (trace_of (Strict.build_reference_fingerprint env ref_folder)) ->
               ~ is_imread ev.
Proof.
  intros F SF env ref_folder e V.
  assert (E : Strict.build_reference_fingerprint env ref_folder
              = (trace_of (Strict.validate_references env (Common.glob_CR2 env ref_folder)),
                 inl e)).
  { unfold Strict.build_reference_fingerprint.
    rewrite (M_eta (Strict.validate_references env (Common.glob_CR2 env ref_folder))) at 1.
    rewrite V. reflexivity. }
  split; [exact E|].
  rewrite E. apply validate_references_no_imread.
Qed.

(** Fifteen readable files of which the third cannot be opened. *)
Lemma failed_validation_stops_strict_build_witness :
  let env := Sample.one_unreadable (F:=Binary32.float32) in
  outcome_of (Strict.build_reference_fingerprint env "refs")
    = inl (OSError "Permission denied") /\
  forall ev, In ev (trace_of (Strict.build_reference_fingerprint env "refs")) ->
             ~ is_imread ev.
Proof.
  cbv zeta.
  destruct (failed_validation_stops_strict_build _ _
              (Sample.one_unreadable (F:=Binary32.float32)) "refs"
              (OSError "Permission denied")) as [E H].
  - vm_compute. reflexivity.
  - split; [now rewrite E | exact H].
Defined.

(** ** The shape of the fingerprint *)

Lemma fold_min_in (xs : list nat) (x0 : nat) :
  fold_left Nat.min xs x0 = x0 \/ In (fold_left Nat.min xs x0) xs.
Proof.
  revert x0. induction xs as [|x xs IH]; intros x0; simpl; [now left|].
  destruct (IH (Nat.min x0 x)) as [E|Hin].
  - rewrite E. destruct (Nat.min_dec x0 x) as [M|M]; rewrite M; auto.
  - right. now right.
Qed.

Lemma py_min_in (xs : list nat) (m : nat) : py_min xs = inr m -> In m xs.
Proof.
  destruct xs as [|x xs]; simpl; [discriminate|]. intros [= <-].
  destruct (fold_min_in xs x) as [E|Hin]; [left; now rewrite E | now right].
Qed.

Lemma align_and_average_shape {F : Type} {SF : Scalar F}
    (residuals : list (ndarray F)) (fp : ndarray F) :
  outcome_of (Common.align_and_average residuals) = inr fp ->
  (exists r, In r residuals /\ nrows r = nrows fp) /\
  (exists r, In r residuals /\ ncols r = ncols fp) /\
  (forall r, In r residuals -> nrows fp <= nrows r /\ ncols fp <= ncols r).
Proof.
  intros E. destruct residuals as [|r0 rs]; [discriminate E|].
  assert (Hne : r0 :: rs <> []) by discriminate.
  destruct (align_and_average_nonempty (r0 :: rs) Hne)
    as (h & w & avg & Eh & Ew & _ & Hs & E').
  rewrite E' in E. injection E as <-.
  unfold shape in Hs. injection Hs as Hr Hc. simpl. rewrite Hr, Hc.
  repeat split.
  - apply py_min_in in Eh. apply in_map_iff in Eh as [r [Er Hin]]. now exists r.
  - apply py_min_in in Ew. apply in_map_iff in Ew as [r [Er Hin]]. now exists r.
  - pose proof (py_min_le _ _ Eh) as Hall. rewrite Forall_forall in Hall.
    apply Hall. now apply in_map.
  - pose proof (py_min_le _ _ Ew) as Hall. rewrite Forall_forall in Hall.
    apply Hall. now apply in_map.
Qed.

(** X4: a fingerprint returned by either builder has the smallest height
    and the smallest width found among the residuals of the surviving files:
    each of the two is the dimension of some survivor, and no survivor is
    smaller than the fingerprint in any dimension. *)
Theorem fingerprint_has_minimum_shape :
  forall (F : Type) (SF : Scalar F) (env : Env F) (ref_folder : string) (fp : ndarray F),
    outcome_of (Lenient.build_fingerprint env ref_folder) = inr fp \/
    outcome_of (Strict.build_reference_fingerprint env ref_folder) = inr fp ->
    let survivors := Common.surviving_residuals env (Common.glob_CR2 env ref_folder) in
    (exists r, In r survivors /\ nrows r = nrows fp) /\
    (exists r, In r survivors /\ ncols r = ncols fp) /\
    (forall r, In r survivors -> nrows fp <= nrows r /\ ncols fp <= ncols r).
Proof.
  intros F SF env ref_folder fp [E|E]; cbv zeta; apply align_and_average_shape.
  - destruct (Nat.lt_ge_cases (List.length (Common.glob_CR2 env ref_folder)) 10) as [L|L].
    + rewrite (lenient_build_small env _ L) in E. discriminate E.
    + now rewrite <- (lenient_build_large env _ L).
  - destruct (outcome_of (Strict.validate_references env (Common.glob_CR2 env ref_folder)))
      as [e|[|]] eqn:V.
    + unfold Strict.build_reference_fingerprint in E.
      rewrite outcome_bind, V in E. discriminate E.
    + now rewrite <- (strict_build_after_validation env _ V).
    + exfalso.
      destruct (validate_references_cases env (Common.glob_CR2 env ref_folder))
        as [[_ E']|[(_ & bad & _ & _ & E')|(_ & _ & [E'|[msg E']])]];
        rewrite E' in V; discriminate.
Qed.

(** The sample folder in which two files decode, both to a 1x2 image. *)
Lemma fingerprint_has_minimum_shape_witness :
  let env := Sample.two_good (F:=Binary32.float32) in
  exists fp,
    outcome_of (Strict.build_reference_fingerprint env "refs") = inr fp /\
    forall r, In r (Common.surviving_residuals env (Common.glob_CR2 env "refs")) ->
              nrows fp <= nrows r /\ ncols fp <= ncols r.
Proof.
  cbv zeta. set (env := Sample.two_good (F:=Binary32.float32)).
  assert (V : outcome_of (Strict.validate_references env (Common.glob_CR2 env "refs"))
              = inr true) by (vm_compute; reflexivity).
  assert (L : List.length (Common.surviving_residuals env (Common.glob_CR2 env "refs")) = 2)
    by (vm_compute; reflexivity).
  assert (Hne : Common.surviving_residuals env (Common.glob_CR2 env "refs") <> []).
  { intros E. rewrite E in L. discriminate L. }
  destruct (align_and_average_nonempty _ Hne) as (h & w & avg & _ & _ & _ & _ & E).
  assert (B : outcome_of (Strict.build_reference_fingerprint env "refs")
              = inr (div_scalar avg (std avg))).
  { rewrite (strict_build_after_validation env _ V), E. reflexivity. }
  exists (div_scalar avg (std avg)). split; [exact B|].
  destruct (fingerprint_has_minimum_shape _ _ env "refs" _ (or_intror B)) as (_ & _ & H).
  exact H.
Defined.

(** ** Comparing images *)

Section CompareFacts.
Context {F : Type} {SF : Scalar F} (env : Env F).

Lemma extract_residual_eta (img_path : string) :
  Common.extract_residual env img_path
  = ([ImRead img_path], outcome_of (Common.extract_residual env img_path)).
Proof.
  rewrite (M_eta (Common.extract_residual env img_path)) at 1.
  now rewrite extract_residual_trace.
Qed.

Lemma extract_residual_decode_error (img_path msg : string) :
  imread_postprocess env img_path = inl msg ->
  Common.extract_residual env img_path = ([ImRead img_path], inl (LibRawError msg)).
Proof.
  intros E. unfold Common.extract_residual, emit. rewrite bind_value, E. reflexivity.
Qed.

Lemma compare_to_fingerprint_ok (outprefix test_img : string)
    (fingerprint res_test : ndarray F) (corr : F) :
  outcome_of (Common.extract_residual env test_img) = inr res_test ->
  Common.normalized_correlation
    (crop (nrows fingerprint) (ncols fingerprint) res_test) fingerprint = inr corr ->
  Common.compare_to_fingerprint env outprefix test_img fingerprint
  = ([ImRead test_img;
      SaveFig (outprefix ++ Py.basename test_img ++ ".png");
      Stdout ("[+] Saved residual comparison: "
              ++ (outprefix ++ Py.basename test_img ++ ".png"));
      StdoutScore corr], inr tt).
Proof.
  intros E C. unfold Common.compare_to_fingerprint.
  rewrite extract_residual_eta, E, bind_value. unfold shape. rewrite C. reflexivity.
Qed.

End CompareFacts.



(** X6: a decoding failure is fatal for a test image and harmless for a
    reference image.  When the decoder fails on a file,
    [compare_to_fingerprint] ends with the decoder's exception right after
    the attempt, saving and printing nothing, while the loop of the builders
    prints the [[!] Skipping] notice for the same file and goes on. *)
Theorem decode_failure_fatal_for_test_image_only :
  forall (F : Type) (SF : Scalar F) (env : Env F)
         (img msg : string) (fingerprint : ndarray F)
         (rest : list string) (acc : list (ndarray F)),
    imread_postprocess env img = inl msg ->
    Strict.compare_to_fingerprint env img fingerprint
      = ([ImRead img], inl (LibRawError msg)) /\
    Lenient.compare_to_fingerprint env img fingerprint
      = ([ImRead img], inl (LibRawError msg)) /\
    Common.notice env img = "[!] Skipping " ++ img ++ ", error: " ++ msg /\
    Common.collect_residuals env (img :: rest) acc
      = ((ImRead img :: Stdout (Common.notice env img)
                     :: trace_of (Common.collect_residuals env rest acc))%list,
         outcome_of (Common.collect_residuals env rest acc)).
Proof.
  intros F SF env img msg fp rest acc E.
  pose proof (extract_residual_decode_error env img msg E) as X.
  assert (C : forall outprefix,
             Common.compare_to_fingerprint env outprefix img fp
             = ([ImRead img], inl (LibRawError msg))).
  { intros outprefix. unfold Common.compare_to_fingerprint. now rewrite X. }
  split; [apply C|]. split; [apply C|].
  assert (N : Common.notice env img = "[!] Skipping " ++ img ++ ", error: " ++ msg).
  { unfold Common.notice. now rewrite X. }
  split; [exact N|].
  rewrite (M_eta (Common.collect_residuals env (img :: rest) acc)).
  rewrite !collect_residuals_trace, !collect_residuals_outcome.
  f_equal. f_equal. f_equal.
  unfold Common.surviving_residuals. cbn [flat_map]. now rewrite X.
Qed.

(** A file that does not decode, used as test image and as first reference. *)
Lemma decode_failure_fatal_for_test_image_only_witness :
  let env := Sample.all_corrupt (F:=Binary32.float32) in
  Strict.compare_to_fingerprint env "refs/a.CR2" (mk 1 1 (fun _ _ => S754_zero false))
    = ([ImRead "refs/a.CR2"], inl (LibRawError "Unsupported file format or not RAW file")) /\
  outcome_of (Common.collect_residuals env ["refs/a.CR2"] []) = inr [].
Proof.
  cbv zeta.
  destruct (decode_failure_fatal_for_test_image_only _ _
              (Sample.all_corrupt (F:=Binary32.float32)) "refs/a.CR2"
              "Unsupported file format or not RAW file"
              (mk 1 1 (fun _ _ => S754_zero false)) [] [] eq_refl)
    as (Hs & _ & _ & Hc).
  split; [exact Hs|]. now rewrite Hc.
Defined.

Section DirectCompare.
Context {F : Type} {SF : Scalar F} (env : Env F).

Lemma compare_prnu_unfold (cr2_a cr2_b : string) (res_a res_b : ndarray F) :
  outcome_of (Common.extract_residual env cr2_a) = inr res_a ->
  outcome_of (Common.extract_residual env cr2_b) = inr res_b ->
  Compare.compare_prnu env cr2_a cr2_b
  = match Common.normalized_correlation res_a res_b with
    | inl e => ([ImRead cr2_a; ImRead cr2_b], inl e)
    | inr corr =>
        ([ImRead cr2_a; ImRead cr2_b;
          SaveFig ("PRNU_compare_" ++ Py.basename cr2_a ++ "_"
                   ++ Py.basename cr2_b ++ ".png");
          Stdout ("[+] Residuals saved: "
                  ++ ("PRNU_compare_" ++ Py.basename cr2_a ++ "_"
                      ++ Py.basename cr2_b ++ ".png"));
          StdoutScore corr], inr tt)
    end.
Proof.
  intros Ea Eb. unfold Compare.compare_prnu, Compare.extract_noise_residual.
  rewrite (extract_residual_eta env cr2_a), Ea, bind_value.
  rewrite (extract_residual_eta env cr2_b), Eb, bind_value.
  now destruct (Common.normalized_correlation res_a res_b).
Qed.

End DirectCompare.

(** X7: [compare_prnu] decodes its first file, then its second, and stops
    at the first one that fails with the decoder's exception: when the first
    file fails the second is never decoded, and in both cases nothing is
    saved and no score is printed. *)
Theorem compare_prnu_stops_at_first_decode_failure :
  forall (F : Type) (SF : Scalar F) (env : Env F) (cr2_a cr2_b msg : string),
    (imread_postprocess env cr2_a = inl msg ->
     Compare.compare_prnu env cr2_a cr2_b = ([ImRead cr2_a], inl (LibRawError msg))) /\
    ((exists res_a, outcome_of (Common.extract_residual env cr2_a) = inr res_a) ->
     imread_postprocess env cr2_b = inl msg ->
     Compare.compare_prnu env cr2_a cr2_b
       = ([ImRead cr2_a; ImRead cr2_b], inl (LibRawError msg))).
Proof.
  intros F SF env cr2_a cr2_b msg. split.
  - intros E. unfold Compare.compare_prnu, Compare.extract_noise_residual.
    now rewrite (extract_residual_decode_error env _ _ E).
  - intros [res_a Ea] E. unfold Compare.compare_prnu, Compare.extract_noise_residual.
    rewrite (extract_residual_eta env cr2_a), Ea, bind_value.
    now rewrite (extract_residual_decode_error env _ _ E).
Qed.

(** X8: [compare_prnu] does not crop: when the two residuals differ in
    height or in width (neither of the two lengths being 1), it ends with
    the shape-mismatch error of the element-wise product after decoding both
    files, saving nothing and printing no score. *)
Theorem compare_prnu_needs_equal_shapes :
  forall (F : Type) (SF : Scalar F) (env : Env F)
         (cr2_a cr2_b : string) (res_a res_b : ndarray F),
    outcome_of (Common.extract_residual env cr2_a) = inr res_a ->
    outcome_of (Common.extract_residual env cr2_b) = inr res_b ->
    (nrows res_a <> nrows res_b /\ nrows res_a <> 1 /\ nrows res_b <> 1) \/
    (ncols res_a <> ncols res_b /\ ncols res_a <> 1 /\ ncols res_b <> 1) ->
    Compare.compare_prnu env cr2_a cr2_b
      = ([ImRead cr2_a; ImRead cr2_b], inl broadcast_error).
Proof.
  intros F SF env cr2_a cr2_b res_a res_b Ea Eb Hshape.
  rewrite (compare_prnu_unfold env _ _ _ _ Ea Eb).
  unfold Common.normalized_correlation.
  now rewrite (mul_shape_mismatch res_a res_b Hshape).
Qed.

(** A 2x2 image against a 3x3 image. *)
Lemma compare_prnu_needs_equal_shapes_witness :
  let env := Sample.world (F:=Binary32.float32) []
               (fun p => if String.eqb p "big.CR2"
                         then Some (Sample.grey_raster 3 3 (fun i j => Z.of_nat (i + 2 * j)))
                         else Some Sample.uniform_raster)
               Sample.all_readable in
  Compare.compare_prnu env "small.CR2" "big.CR2"
    = ([ImRead "small.CR2"; ImRead "big.CR2"], inl broadcast_error).
Proof.
  cbv zeta.
  match goal with
  | |- Compare.compare_prnu (Sample.world _ ?d _) _ _ = _ => set (dec := d)
  end.
  destruct (sample_extract_residual (F:=Binary32.float32) [] dec Sample.all_readable
              "small.CR2" Sample.uniform_raster eq_refl) as (ra & Ea & Sa & _).
  destruct (sample_extract_residual (F:=Binary32.float32) [] dec Sample.all_readable
              "big.CR2" (Sample.grey_raster 3 3 (fun i j => Z.of_nat (i + 2 * j))) eq_refl)
    as (rb & Eb & Sb & _).
  apply (compare_prnu_needs_equal_shapes _ _ _ "small.CR2" "big.CR2" ra rb Ea Eb).
  left. rewrite Sa, Sb. split; [|split]; discriminate.
Defined.



(** ** Collection of the reference files *)

(** X11: the reference files are collected case-sensitively although the
    validator compares extensions case-insensitively.  When no entry of the
    scanned folder has a name ending in [.CR2] (lower-case [.cr2] names, for
    instance), nothing is collected and both builders raise their size error
    before reading or decoding anything. *)
Theorem only_upper_case_extension_is_collected :
  forall (F : Type) (SF : Scalar F) (env : Env F) (ref_folder : string),
    (forall d names name,
        In (d, names) (scandir env ref_folder) -> In name names ->
        Py.endswith name ".CR2" = false) ->
    Common.glob_CR2 env ref_folder = [] /\
    Strict.build_reference_fingerprint env ref_folder = ([], inl Strict.size_error) /\
    Lenient.build_fingerprint env ref_folder = ([], inl Lenient.size_error).
Proof.
  intros F SF env ref_folder Hnone.
  assert (G : Common.glob_CR2 env ref_folder = []).
  { unfold Common.glob_CR2.
    induction (scandir env ref_folder) as [|[d names] dirs IH]; [reflexivity|].
    simpl. rewrite IH.
    - rewrite app_nil_r.
      assert (Fl : filter Common.matches_star_CR2 names = []).
      { assert (Hn : forall name, In name names -> Py.endswith name ".CR2" = false).
        { intros name Hin. apply (Hnone d names name); [now left | exact Hin]. }
        clear -Hn. induction names as [|n ns IHn]; [reflexivity|].
        simpl. unfold Common.matches_star_CR2 at 1.
        rewrite (Hn n (or_introl eq_refl)), andb_false_r.
        apply IHn. intros name Hin. apply Hn. now right. }
      now rewrite Fl.
    - intros d' names' name Hd Hn. exact (Hnone d' names' name (or_intror Hd) Hn). }
  split; [exact G|]. split.
  - unfold Strict.build_reference_fingerprint. rewrite G. reflexivity.
  - unfold Lenient.build_fingerprint. rewrite G. reflexivity.
Qed.

(** Twenty files [a.cr2] ... [t.cr2]: each has the extension the validator
    accepts, none is collected. *)
Lemma only_upper_case_extension_is_collected_witness :
  let names := map (fun c => String c ".cr2")
                   (list_ascii_of_string "abcdefghijklmnopqrst") in
  let env := Sample.world (F:=Binary32.float32) names
               (fun _ => Some Sample.step_raster) Sample.all_readable in
  List.length names = 20 /\
  forallb Strict.has_cr2_extension (map (Py.join "refs") names) = true /\
  Strict.build_reference_fingerprint env "refs" = ([], inl Strict.size_error).
Proof.
  cbv zeta. split; [reflexivity|]. split; [vm_compute; reflexivity|].
  apply only_upper_case_extension_is_collected.
  intros d names name Hd Hn.
  cbn in Hd. destruct Hd as [[= <- <-]|[]].
  revert name Hn. apply Forall_forall. vm_compute.
  repeat (constructor; [reflexivity|]). constructor.
Defined.

(** ** What validation prints *)

Section ValidationTrace.
Context {F : Type} {SF : Scalar F} (env : Env F).

Lemma log_hashes_readable_trace (ref_files : list string)
    (contents : string -> list Byte.byte) :
  (forall f, In f ref_files -> read_binary env f = inr (contents f)) ->
  Strict.log_hashes env ref_files
  = (flat_map (fun f => [FileRead f; Stdout (Strict.hash_record env f (contents f))])
              ref_files, inr tt).
Proof.
  induction ref_files as [|f rest IH]; intros Hread; [reflexivity|].
  rewrite log_hashes_cons. unfold emit at 1. rewrite bind_value.
  rewrite (Hread f (or_introl eq_refl)).
  unfold Common.raising, ret. rewrite bind_value.
  unfold print, emit. rewrite bind_value.
  rewrite IH by (intros g Hg; apply Hread; now right).
  reflexivity.
Qed.

(** Validation prints and reads, and does nothing else. *)
Lemma validate_references_events (ref_files : list string) :
  forall ev, In ev (trace_of (Strict.validate_references env ref_files)) ->
             (exists line, ev = Stdout line) \/ (exists p, ev = FileRead p).
Proof.
  assert (Hlog : forall files ev, In ev (trace_of (Strict.log_hashes env files)) ->
                   (exists line, ev = Stdout line) \/ (exists p, ev = FileRead p)).
  { induction files as [|f rest IH]; intros ev Hin; [destruct Hin|].
    rewrite log_hashes_cons, trace_bind in Hin. simpl in Hin.
    destruct Hin as [<-|Hin]; [right; eauto|].
    rewrite trace_bind, trace_raising, outcome_raising in Hin. simpl in Hin.
    destruct (read_binary env f) as [msg|data]; [destruct Hin|].
    rewrite trace_bind in Hin. simpl in Hin.
    destruct Hin as [<-|Hin]; [left; eauto | now apply IH]. }
  intros ev Hin.
  destruct (validate_references_cases env ref_files)
    as [[_ E]|[(_ & bad & _ & _ & E)|(L & Hall & _)]].
  - rewrite E in Hin. destruct Hin.
  - rewrite E in Hin. destruct Hin.
  - rewrite (validate_references_large _ _ L), check_extensions_find,
      (find_none_all_cr2 _ Hall) in Hin.
    rewrite !trace_bind in Hin. simpl in Hin.
    destruct Hin as [<-|Hin]; [left; eauto|].
    apply in_app_or in Hin as [Hin|Hin]; [now apply (Hlog ref_files)|].
    destruct (outcome_of (Strict.log_hashes env ref_files)); destruct Hin.
Qed.

End ValidationTrace.

(** X12: on a set of at least 15 files that all end in [.cr2]
    case-insensitively and can all be read, validation returns [True] after
    printing the header and then, for each file in the order of the set, a
    read of the file followed by its hash record: one record per file, built
    from the file's base name and the digest of its content. *)
Theorem validation_logs_one_record_per_file :
  forall (F : Type) (SF : Scalar F) (env : Env F) (ref_files : list string)
         (contents : string -> list Byte.byte),
    15 <= List.length ref_files ->
    Forall (fun f => Strict.has_cr2_extension f = true) ref_files ->
    (forall f, In f ref_files -> read_binary env f = inr (contents f)) ->
    Strict.validate_references env ref_files
    = (Stdout "Reference File Validation:"
         :: flat_map (fun f =>
                        [FileRead f;
                         Stdout ("  " ++ Py.basename f ++ " -> SHA256: "
                                 ++ sha256_hexdigest env (contents f))])
                     ref_files,
       inr true).
Proof.
  intros F SF env ref_files contents L Hall Hread.
  rewrite (validate_references_large _ _ L), check_extensions_find,
    (find_none_all_cr2 _ Hall).
  rewrite (log_hashes_readable_trace env ref_files contents Hread).
  unfold print, emit, ret. rewrite !bind_value. simpl. now rewrite app_nil_r.
Qed.

(** The fifteen sample files, each holding the two bytes [CR]. *)
Lemma validation_logs_one_record_per_file_witness :
  let env := Sample.all_good (F:=Binary32.float32) in
  exists records,
    Strict.validate_references env Sample.fifteen_paths
      = (Stdout "Reference File Validation:" :: records, inr true) /\
    List.length records = 30 /\
    nth_error records 1 = Some (Stdout "  a.CR2 -> SHA256: 4352").
Proof.
  cbv zeta. eexists. split.
  - apply (validation_logs_one_record_per_file _ _ (Sample.all_good (F:=Binary32.float32))
             Sample.fifteen_paths (fun _ => [Byte.x43; Byte.x52])).
    + vm_compute. lia.
    + apply Forall_forall. apply forallb_forall. vm_compute. reflexivity.
    + intros f _. reflexivity.
  - split; vm_compute; reflexivity.
Defined.

(** ** The command line *)

(** X13: started with any number of arguments other than two (an argument
    vector whose length is not 3), each script prints its usage line and
    exits with status 1; it reads, decodes and saves nothing. *)
Theorem wrong_argument_count_prints_usage :
  forall (F : Type) (SF : Scalar F) (env : Env F) (argv : list string),
    List.length argv <> 3 ->
    Compare.main env argv
      = ([Stdout "Usage: python prnu_compare.py file1.CR2 file2.CR2"], Exited 1) /\
    Lenient.main env argv
      = ([Stdout "Usage: python3 full_prnu_pipeline.py /path/to/ref_folder/ /path/to/test_image.CR2"],
         Exited 1) /\
    Strict.main env argv
      = ([Stdout "Usage: python strict_prnu.py /path/to/ref_folder/ /path/to/test_image.CR2"],
         Exited 1).
Proof.
  intros F SF env argv L.
  destruct argv as [|a0 [|a1 [|a2 [|a3 rest]]]];
    try (split; [|split]; reflexivity).
  exfalso. apply L. reflexivity.
Qed.

(** The script name alone. *)
Lemma wrong_argument_count_prints_usage_witness :
  Strict.main (Sample.all_good (F:=Binary32.float32)) ["strict_prnu.py"]
  = ([Stdout "Usage: python strict_prnu.py /path/to/ref_folder/ /path/to/test_image.CR2"],
     Exited 1).
Proof.
  apply (wrong_argument_count_prints_usage _ _ (Sample.all_good (F:=Binary32.float32))
           ["strict_prnu.py"]).
  discriminate.
Defined.

Section MainFacts.
Context {F : Type} {SF : Scalar F} (env : Env F).

(** A comparison either stops before saving anything or runs to its end. *)
Lemma compare_to_fingerprint_cases (outprefix test_img : string) (fp : ndarray F) :
  (exists e, Common.compare_to_fingerprint env outprefix test_img fp
             = ([ImRead test_img], inl e)) \/
  (exists corr, Common.compare_to_fingerprint env outprefix test_img fp
                = ([ImRead test_img;
                    SaveFig (outprefix ++ Py.basename test_img ++ ".png");
                    Stdout ("[+] Saved residual comparison: "
                            ++ (outprefix ++ Py.basename test_img ++ ".png"));
                    StdoutScore corr], inr tt)).
Proof.
  destruct (outcome_of (Common.extract_residual env test_img)) as [e|res] eqn:E.
  - left. exists e. unfold Common.compare_to_fingerprint.
    now rewrite extract_residual_eta, E.
  - destruct (Common.normalized_correlation (crop (nrows fp) (ncols fp) res) fp)
      as [e|corr] eqn:C.
    + left. exists e. unfold Common.compare_to_fingerprint.
      rewrite extract_residual_eta, E, bind_value. unfold shape. now rewrite C.
    + right. exists corr. now apply compare_to_fingerprint_ok with (res_test := res).
Qed.

Lemma collect_residuals_prints_no_score (ref_files : list string)
    (acc : list (ndarray F)) (corr : F) :
  ~ In (StdoutScore corr) (trace_of (Common.collect_residuals env ref_files acc)).
Proof.
  rewrite collect_residuals_trace. intros Hin.
  apply in_flat_map in Hin as [f [_ [H|[H|[]]]]]; discriminate H.
Qed.

Lemma strict_build_prints_no_score (ref_folder : string) (corr : F) :
  ~ In (StdoutScore corr) (trace_of (Strict.build_reference_fingerprint env ref_folder)).
Proof.
  unfold Strict.build_reference_fingerprint. rewrite trace_bind. intros Hin.
  apply in_app_or in Hin as [Hin|Hin].
  - apply validate_references_events in Hin as [[line H]|[p H]]; discriminate H.
  - destruct (outcome_of (Strict.validate_references env (Common.glob_CR2 env ref_folder)));
      [destruct Hin|].
    rewrite trace_bind, collect_residuals_outcome, align_and_average_trace, app_nil_r in Hin.
    now apply collect_residuals_prints_no_score in Hin.
Qed.

Lemma lenient_build_prints_no_score (ref_folder : string) (corr : F) :
  ~ In (StdoutScore corr) (trace_of (Lenient.build_fingerprint env ref_folder)).
Proof.
  unfold Lenient.build_fingerprint.
  destruct (Py.len_lt (Common.glob_CR2 env ref_folder) 10); [intros []|].
  rewrite trace_bind, collect_residuals_outcome, align_and_average_trace, app_nil_r.
  apply collect_residuals_prints_no_score.
Qed.

(** A run of "build, then compare" that prints a score has built a
    fingerprint and ends normally. *)
Lemma score_needs_fingerprint (outprefix usage prog ref_folder test_img : string)
    (build : string -> M F (ndarray F)) (corr : F) :
  (forall c, ~ In (StdoutScore c) (trace_of (build ref_folder))) ->
  In (StdoutScore corr)
     (fst (run_main usage
             (fun ref_folder test_img =>
                fp <- build ref_folder ;;
                Common.compare_to_fingerprint env outprefix test_img fp)
             [prog; ref_folder; test_img])) ->
  (exists fp, outcome_of (build ref_folder) = inr fp) /\
  snd (run_main usage
         (fun ref_folder test_img =>
            fp <- build ref_folder ;;
            Common.compare_to_fingerprint env outprefix test_img fp)
         [prog; ref_folder; test_img]) = Finished.
Proof.
  intros Hno Hin. cbn [run_main] in *.
  destruct (build ref_folder) as [t [e|fp]] eqn:B.
  - exfalso. rewrite bind_raise in Hin. simpl in Hin. now apply (Hno corr).
  - rewrite bind_value in *.
    destruct (compare_to_fingerprint_cases outprefix test_img fp) as [[e C]|[c C]];
      rewrite C in *; simpl in *.
    + exfalso. apply in_app_or in Hin as [Hin|[H|[]]]; [|discriminate H].
      now apply (Hno corr).
    + split; [eauto | reflexivity].
Qed.

End MainFacts.

(** X14: the pipelines print a score only for a reference set that passed
    their checks.  If a run of the strict script prints a score, then the
    collected set has at least 15 files, validation returned [True] (every
    file was read and its hash record printed), a fingerprint was built, and
    the run ends normally; for the lenient script the set has at least 10
    files. *)
Theorem score_printed_only_after_checks :
  forall (F : Type) (SF : Scalar F) (env : Env F)
         (prog ref_folder test_img : string) (corr : F),
    (In (StdoutScore corr) (fst (Strict.main env [prog; ref_folder; test_img])) ->
     15 <= List.length (Common.glob_CR2 env ref_folder) /\
     outcome_of (Strict.validate_references env (Common.glob_CR2 env ref_folder)) = inr true /\
     (exists fp, outcome_of (Strict.build_reference_fingerprint env ref_folder) = inr fp) /\
     snd (Strict.main env [prog; ref_folder; test_img]) = Finished) /\
    (In (StdoutScore corr) (fst (Lenient.main env [prog; ref_folder; test_img])) ->
     10 <= List.length (Common.glob_CR2 env ref_folder) /\
     (exists fp, outcome_of (Lenient.build_fingerprint env ref_folder) = inr fp) /\
     snd (Lenient.main env [prog; ref_folder; test_img]) = Finished).
Proof.
  intros F SF env prog ref_folder test_img corr. split; intros Hin.
  - destruct (score_needs_fingerprint env "PRNU_strict_" _ prog ref_folder test_img
                (Strict.build_reference_fingerprint env) corr
                (fun c => strict_build_prints_no_score env ref_folder c) Hin)
      as [[fp B] Hend].
    assert (V : outcome_of (Strict.validate_references env (Common.glob_CR2 env ref_folder))
                = inr true).
    { destruct (outcome_of (Strict.validate_references env (Common.glob_CR2 env ref_folder)))
        as [e|[|]] eqn:V; [|reflexivity|].
      - unfold Strict.build_reference_fingerprint in B.
        rewrite outcome_bind, V in B. discriminate B.
      - exfalso.
        destruct (validate_references_cases env (Common.glob_CR2 env ref_folder))
          as [[_ E']|[(_ & bad & _ & _ & E')|(_ & _ & [E'|[msg E']])]];
          rewrite E' in V; discriminate. }
    split; [|split; [exact V | split; [now exists fp | exact Hend]]].
    destruct (validate_references_cases env (Common.glob_CR2 env ref_folder))
      as [[_ E]|[(L & _)|(L & _)]]; try exact L.
    rewrite E in V. discriminate V.
  - destruct (score_needs_fingerprint env "PRNU_test_" _ prog ref_folder test_img
                (Lenient.build_fingerprint env) corr
                (fun c => lenient_build_prints_no_score env ref_folder c) Hin)
      as [[fp B] Hend].
    split; [|split; [now exists fp | exact Hend]].
    destruct (Nat.lt_ge_cases (List.length (Common.glob_CR2 env ref_folder)) 10) as [L|L];
      [|exact L].
    rewrite (lenient_build_small env _ L) in B. discriminate B.
Qed.

(** The strict script on the sample folder of fifteen good files, with the
    first of them as test image. *)
Lemma score_printed_only_after_checks_witness :
  let env := Sample.all_good (F:=Binary32.float32) in
  let argv := ["strict_prnu.py"; "refs"; "refs/a.CR2"] in
  exists corr,
    In (StdoutScore corr) (fst (Strict.main env argv)) /\
    15 <= List.length (Common.glob_CR2 env "refs") /\
    snd (Strict.main env argv) = Finished.
Proof.
  cbv zeta.
  assert (H : exists corr,
             In (StdoutScore corr)
                (fst (Strict.main (Sample.all_good (F:=Binary32.float32))
                        ["strict_prnu.py"; "refs"; "refs/a.CR2"]))).
  { eexists. vm_compute. repeat (first [left; reflexivity | right]). }
  destruct H as [corr H]. exists corr. split; [exact H|].
  destruct (score_printed_only_after_checks _ _ (Sample.all_good (F:=Binary32.float32))
              "strict_prnu.py" "refs" "refs/a.CR2" corr) as [S _].
  destruct (S H) as (L & _ & _ & E). split; [exact L | exact E].
Defined.

(** ** The positions of a grid *)

Lemma map_flat_map_comm {A B C} (f : B -> C) (g : A -> list B) (l : list A) :
  map f (flat_map g l) = flat_map (fun x => map f (g x)) l.
Proof.
  induction l as [|x l IH]; simpl; [reflexivity|]. now rewrite map_app, IH.
Qed.

Lemma ravel_indices {F : Type} (a : ndarray F) :
  ravel a = map (fun p => elem a (fst p) (snd p)) (indices (nrows a) (ncols a)).
Proof.
  unfold ravel, indices. rewrite map_flat_map_comm.
  apply flat_map_ext. intros i. now rewrite map_map.
Qed.

(** ** Invalid values in binary32 arithmetic *)

Section InvalidValues.
Import Binary32.

Ltac float_op :=
  change (@fadd float32 float32_scalar) with (SFadd prec emax) in *;
  change (@fsub float32 float32_scalar) with (SFsub prec emax) in *;
  change (@fmul float32 float32_scalar) with (SFmul prec emax) in *;
  change (@fdiv float32 float32_scalar) with (SFdiv prec emax) in *;
  change (@fsqrt float32 float32_scalar) with (SFsqrt prec emax) in *.

Ltac by_float_cases x y :=
  float_op;
  destruct x as [[|]|[|]| |[|] ? ?]; try discriminate;
  destruct y as [[|]|[|]| |[|] ? ?]; try discriminate; reflexivity.

Lemma invalid_add_l (x y : float32) : invalid x = true -> invalid (fadd x y) = true.
Proof. intros H. by_float_cases x y. Qed.

Lemma invalid_add_r (x y : float32) : invalid y = true -> invalid (fadd x y) = true.
Proof. intros H. by_float_cases y x. Qed.

Lemma invalid_sub_l (x y : float32) : invalid x = true -> invalid (fsub x y) = true.
Proof. intros H. by_float_cases x y. Qed.

Lemma invalid_mul_l (x y : float32) : invalid x = true -> invalid (fmul x y) = true.
Proof. intros H. by_float_cases x y. Qed.

Lemma invalid_div_l (x y : float32) : invalid x = true -> invalid (fdiv x y) = true.
Proof. intros H. by_float_cases x y. Qed.

Lemma invalid_sqrt (x : float32) : invalid x = true -> invalid (fsqrt x) = true.
Proof.
  intros H. float_op. destruct x as [[|]|[|]| |[|] ? ?]; try discriminate; reflexivity.
Qed.

Lemma invalid_div_invalid (x y : float32) :
  invalid x = true -> invalid y = true -> is_nan (fdiv x y) = true.
Proof. intros Hx Hy. by_float_cases x y. Qed.

Lemma zero_div_zero : is_nan (fdiv (fzero : float32) (of_count 0)) = true.
Proof. reflexivity. Qed.

Lemma nan_is_invalid (x : float32) : is_nan x = true -> invalid x = true.
Proof. unfold invalid. now intros ->. Qed.

(** Once an invalid value enters a running sum, the sum stays invalid. *)
Lemma fold_add_invalid_acc (l : list float32) (acc : float32) :
  invalid acc = true -> invalid (fold_left fadd l acc) = true.
Proof.
  revert acc. induction l as [|x l IH]; intros acc H; [exact H|].
  cbn [fold_left]. apply IH. now apply invalid_add_l.
Qed.

Lemma fold_add_invalid_member (l : list float32) (acc x : float32) :
  In x l -> invalid x = true -> invalid (fold_left fadd l acc) = true.
Proof.
  revert acc. induction l as [|y l IH]; intros acc Hin Hx; [destruct Hin|].
  cbn [fold_left]. destruct Hin as [->|Hin].
  - apply fold_add_invalid_acc. now apply invalid_add_r.
  - now apply IH.
Qed.

End InvalidValues.

Lemma indices_length (h w : nat) : List.length (indices h w) = h * w.
Proof.
  unfold indices. generalize 0 at 2. induction h as [|h IH]; intros s; [reflexivity|].
  cbn [seq flat_map]. rewrite length_app, length_map, length_seq, IH. reflexivity.
Qed.

Lemma ravel_length {F : Type} (a : ndarray F) : List.length (ravel a) = size a.
Proof. rewrite ravel_indices, length_map. apply indices_length. Qed.

Section InvalidGrids.
Import Binary32.

(** A grid of invalid values has an invalid sum unless it is empty. *)
Lemma sum_invalid (a : ndarray float32) :
  ravel a <> [] ->
  (forall x, In x (ravel a) -> invalid x = true) ->
  invalid (sum a) = true.
Proof.
  intros Hne Hall. unfold sum. destruct (ravel a) as [|x l] eqn:E; [congruence|].
  apply fold_add_invalid_member with (x := x); [now left | apply Hall; now left].
Qed.

(** A grid of invalid values has an invalid standard deviation. *)
Lemma std_invalid (a : ndarray float32) :
  (forall i j, invalid (elem a i j) = true) -> invalid (std a) = true.
Proof.
  intros Hall. unfold std. apply invalid_sqrt.
  destruct (ravel a) as [|x l] eqn:E.
  - assert (Hs : size a = 0) by (rewrite <- ravel_length, E; reflexivity).
    unfold sum, square. rewrite !ravel_map_nd, E, Hs. cbn [map fold_left].
    apply nan_is_invalid. exact zero_div_zero.
  - apply invalid_div_l. apply sum_invalid.
    + unfold square. rewrite !ravel_map_nd, E. discriminate.
    + intros y Hy. unfold square in Hy. rewrite !ravel_map_nd, map_map in Hy.
      apply in_map_iff in Hy as [v [<- Hv]].
      apply invalid_mul_l, invalid_sub_l.
      rewrite ravel_indices in Hv. apply in_map_iff in Hv as [p [<- _]]. apply Hall.
Qed.

Lemma mean_axis0_elem {F : Type} {SF : Scalar F} (rs : list (ndarray F)) (avg : ndarray F) :
  mean_axis0 rs = inr avg ->
  forall i j, elem avg i j
              = fdiv (fold_left fadd (map (fun r => elem r i j) rs) fzero)
                     (of_count (List.length rs)).
Proof.
  unfold mean_axis0. destruct rs as [|r0 rest]; [discriminate|].
  destruct (forallb (same_shape r0) (r0 :: rest)); [|discriminate].
  intros [= <-] i j. reflexivity.
Qed.

End InvalidGrids.

(** One residual whose values are all NaN or infinite, among the residuals
    handed to the averaging step, makes every element of the fingerprint a
    NaN. *)
Lemma invalid_residual_poisons_average
    (residuals : list (ndarray Binary32.float32)) (bad : ndarray Binary32.float32) :
  In bad residuals ->
  (forall i j, Binary32.invalid (elem bad i j) = true) ->
  exists fp,
    Common.align_and_average residuals = ([], inr fp) /\
    forall i j, Binary32.is_nan (elem fp i j) = true.
Proof.
  intros Hin Hbad.
  assert (Hne : residuals <> []) by (intros E; rewrite E in Hin; destruct Hin).
  destruct (align_and_average_nonempty residuals Hne)
    as (h & w & avg & _ & _ & Eavg & _ & E).
  exists (div_scalar avg (std avg)). split; [exact E|].
  assert (Havg : forall i j, Binary32.invalid (elem avg i j) = true).
  { intros i j. rewrite (mean_axis0_elem _ _ Eavg i j).
    apply invalid_div_l.
    apply fold_add_invalid_member with (x := elem bad i j); [|apply Hbad].
    rewrite map_map. apply in_map_iff. exists bad. split; [reflexivity | exact Hin]. }
  intros i j. unfold div_scalar, map_nd. cbn [elem].
  apply invalid_div_invalid; [apply Havg | now apply std_invalid].
Qed.

Lemma extract_residual_value {F : Type} {SF : Scalar F} (env : Env F)
    (img_path : string) (rgb : raster) (raw : ndarray F) :
  imread_postprocess env img_path = inr rgb ->
  Np.sub (cvtColor_RGB2GRAY env rgb) (GaussianBlur env (cvtColor_RGB2GRAY env rgb))
    = inr raw ->
  Common.extract_residual env img_path
  = ([ImRead img_path], inr (div_scalar raw (std raw))).
Proof.
  intros Hrgb Hraw. unfold Common.extract_residual, emit. rewrite bind_value, Hrgb.
  unfold Common.raising, ret. rewrite bind_value. cbv zeta. rewrite Hraw.
  unfold lift. rewrite bind_value. reflexivity.
Qed.

Lemma survivor_of_file {F : Type} {SF : Scalar F} (env : Env F)
    (ref_files : list string) (f : string) (res : ndarray F) :
  In f ref_files ->
  outcome_of (Common.extract_residual env f) = inr res ->
  In res (Common.surviving_residuals env ref_files).
Proof.
  intros Hin E. unfold Common.surviving_residuals. apply in_flat_map.
  exists f. split; [exact Hin|]. rewrite E. now left.
Qed.

(** X19: in binary32 arithmetic a single reference file whose raw residual
    has standard deviation zero (a uniform image) is not skipped and turns
    the whole fingerprint into NaN: whatever the other files hold, each
    builder that gets past its checks returns a fingerprint whose every
    element is a NaN. *)
Theorem uniform_reference_poisons_fingerprint :
  forall (env : Env Binary32.float32) (ref_folder f : string) (rgb : raster)
         (raw : ndarray Binary32.float32),
    In f (Common.glob_CR2 env ref_folder) ->
    imread_postprocess env f = inr rgb ->
    Np.sub (cvtColor_RGB2GRAY env rgb) (GaussianBlur env (cvtColor_RGB2GRAY env rgb))
      = inr raw ->
    Binary32.is_zero (std raw) = true ->
    (10 <= List.length (Common.glob_CR2 env ref_folder) ->
     exists fp,
       outcome_of (Lenient.build_fingerprint env ref_folder) = inr fp /\
       forall i j, Binary32.is_nan (elem fp i j) = true) /\
    (outcome_of (Strict.validate_references env (Common.glob_CR2 env ref_folder)) = inr true ->
     exists fp,
       outcome_of (Strict.build_reference_fingerprint env ref_folder) = inr fp /\
       forall i j, Binary32.is_nan (elem fp i j) = true).
Proof.
  intros env ref_folder f rgb raw Hin Hrgb Hraw Hz.
  assert (Hbad : In (div_scalar raw (std raw))
                    (Common.surviving_residuals env (Common.glob_CR2 env ref_folder))).
  { apply (survivor_of_file env _ f); [exact Hin|].
    now rewrite (extract_residual_value env f rgb raw Hrgb Hraw). }
  destruct (invalid_residual_poisons_average _ _ Hbad) as (fp & E & Hnan).
  { intros i j. unfold div_scalar, map_nd. cbn [elem].
    now apply float32_div_by_zero. }
  split.
  - intros L. exists fp. split; [|exact Hnan].
    rewrite (lenient_build_large env _ L), E. reflexivity.
  - intros V. exists fp. split; [|exact Hnan].
    rewrite (strict_build_after_validation env _ V), E. reflexivity.
Qed.

(** Fifteen reference files of which the first holds a uniform image. *)
Lemma uniform_reference_poisons_fingerprint_witness :
  let env := Sample.world (F:=Binary32.float32) Sample.fifteen_names
               (fun p => if String.eqb p "refs/a.CR2"
                         then Some Sample.uniform_raster else Some Sample.step_raster)
               Sample.all_readable in
  exists fp,
    outcome_of (Strict.build_reference_fingerprint env "refs") = inr fp /\
    forall i j, Binary32.is_nan (elem fp i j) = true.
Proof.
  cbv zeta.
  match goal with
  | |- exists fp, outcome_of (Strict.build_reference_fingerprint ?e _) = _ /\ _ =>
      set (env := e)
  end.
  assert (Hin : In "refs/a.CR2" (Common.glob_CR2 env "refs")) by (vm_compute; tauto).
  destruct (uniform_reference_poisons_fingerprint env "refs" "refs/a.CR2"
              Sample.uniform_raster _ Hin eq_refl eq_refl) as [_ S].
  - vm_compute. reflexivity.
  - apply S. vm_compute. reflexivity.
Defined.

(** X20: in binary32 arithmetic, when one of two non-empty grids of one
    shape holds only NaN or infinite values, the correlation is still
    computed, raises nothing, and the score is a NaN. *)
Theorem invalid_grid_scores_nan :
  forall a b : ndarray Binary32.float32,
    shape a = shape b ->
    0 < size a ->
    (forall i j, Binary32.invalid (elem a i j) = true) \/
    (forall i j, Binary32.invalid (elem b i j) = true) ->
    exists score,
      Common.normalized_correlation a b = inr score /\
      Binary32.is_nan score = true.
Proof.
  assert (Main : forall a b : ndarray Binary32.float32,
             shape a = shape b -> 0 < size a ->
             (forall i j, Binary32.invalid (elem a i j) = true) ->
             exists score,
               Common.normalized_correlation a b = inr score /\
               Binary32.is_nan score = true).
  { intros a b Hs Hsize Ha.
    destruct (broadcast2_same_shape fmul a b Hs) as (ab & Eab & _ & Rab).
    unfold Common.normalized_correlation, Np.mul. rewrite Eab.
    eexists. split; [reflexivity|].
    assert (Hne : ravel a <> []).
    { intros E. apply (f_equal (@List.length _)) in E. rewrite ravel_length in E.
      simpl in E. lia. }
    apply invalid_div_invalid.
    - unfold sum. rewrite Rab, ravel_indices. cbn [nrows ncols elem].
      rewrite ravel_indices in Hne.
      destruct (indices (nrows a) (ncols a)) as [|p I]; [now cbn in Hne|].
      apply fold_add_invalid_member
        with (x := fmul (elem a (fst p) (snd p)) (elem b (fst p) (snd p))).
      + now left.
      + apply invalid_mul_l, Ha.
    - apply invalid_mul_l, invalid_sqrt, sum_invalid.
      + unfold square. rewrite ravel_map_nd. destruct (ravel a); [congruence | discriminate].
      + intros x Hx. unfold square in Hx. rewrite ravel_map_nd in Hx.
        apply in_map_iff in Hx as [v [<- Hv]]. apply invalid_mul_l.
        rewrite ravel_indices in Hv. apply in_map_iff in Hv as [p [<- _]]. apply Ha. }
  intros a b Hs Hsize [Ha|Hb].
  - now apply Main.
  - destruct (Main b a (eq_sym Hs)) as (score & E & Hnan); [|exact Hb|].
    + unfold shape in Hs. injection Hs as Hr Hc. unfold size in *. now rewrite <- Hr, <- Hc.
    + exists score. split; [|exact Hnan].
      destruct (normalized_correlation_comm a b float32_mul_comm Hs) as (s & Eab & Eba).
      rewrite Eab. rewrite Eba in E. exact E.
Qed.

(** A NaN fingerprint against a good 1x2 residual. *)
Lemma invalid_grid_scores_nan_witness :
  let good := mk 1 2 (fun _ j => Binary32.of_Z (if Nat.eqb j 0 then 1 else -1)) in
  let bad := mk 1 2 (fun _ _ => S754_nan) in
  Common.normalized_correlation good bad = inr S754_nan.
Proof.
  cbv zeta.
  destruct (invalid_grid_scores_nan
              (mk 1 2 (fun _ j => Binary32.of_Z (if Nat.eqb j 0 then 1 else -1)))
              (mk 1 2 (fun _ _ => S754_nan)))
    as (score & E & Hnan).
  - reflexivity.
  - cbn. lia.
  - right. reflexivity.
  - rewrite E. destruct score; try discriminate Hnan. reflexivity.
Defined.
